(** * CraftlyPost backend: the content-generation services

    A shallow embedding of [src/services/openaiService.js],
    [src/services/geminiService.js] and of the UGC-ad handler of the content
    router, with the properties of the provider fallback chain, of the
    response cleaning and of the response statistics.

    Conventions of the embedding.
    - A JavaScript string is a [string]; one [ascii] stands for one code unit.
      The library functions below are written for ASCII text, where
      [String.length] is JavaScript's [length].
    - A rejected promise or a thrown [Error] is the left injection of a sum,
      carrying the error's [message].
    - Network calls are answered by an oracle indexed by the number of calls
      made so far; every call and every timer is recorded in a trace.
    - [console] output is not part of the model. *)

From Stdlib Require Import Ascii Arith Bool Lia.
From stdpp Require Import base option list sorting gmap strings pretty.


(* ===================================================================== *)
(** ** JavaScript strings                                                 *)
(* ===================================================================== *)

Module JsString.

(** The line feed and the double quote, which literals cannot spell. *)
Definition LF : string := String "010"%char "".
Definition DQ : string := String "034"%char "".
Definition quoted (s : string) : string := DQ +:+ s +:+ DQ.

(** A template literal that spans several lines. *)
Definition lines (l : list string) : string := String.concat LF l.

(** White space as [trim] and the regular expression [\s] see it. *)
Definition is_ws (c : ascii) : bool :=
  let n := nat_of_ascii c in
  ((9 <=? n) && (n <=? 13)) || (n =? 32).

Fixpoint drop (n : nat) (s : string) : string :=
  match n, s with
  | S n', String _ s' => drop n' s'
  | _, _ => s
  end.

Fixpoint take (n : nat) (s : string) : string :=
  match n, s with
  | S n', String c s' => String c (take n' s')
  | _, _ => ""
  end.

(** [s.substring(from, to)]: both indices are clamped to the length and
    swapped when out of order. *)
Definition substring (s : string) (from to : nat) : string :=
  let a := Nat.min from (String.length s) in
  let b := Nat.min to (String.length s) in
  take (Nat.max a b - Nat.min a b) (drop (Nat.min a b) s).

(** [s.substring(from)] *)
Definition substring_from (s : string) (from : nat) : string :=
  substring s from (String.length s).

(** [s.startsWith(p)] *)
Definition startsWith (s p : string) : bool := String.prefix p s.

(** [s.endsWith(p)] *)
Definition endsWith (s p : string) : bool :=
  if String.length p <=? String.length s
  then String.eqb (drop (String.length s - String.length p) s) p
  else false.

Fixpoint trimStart (s : string) : string :=
  match s with
  | "" => ""
  | String c s' => if is_ws c then trimStart s' else s
  end.

Fixpoint trimEnd (s : string) : string :=
  match s with
  | "" => ""
  | String c s' =>
      match trimEnd s' with
      | "" => if is_ws c then "" else String c ""
      | t => String c t
      end
  end.

(** [s.trim()] *)
Definition trim (s : string) : string := trimStart (trimEnd s).

(** [s.split(sep)] for a one-character separator: never empty, one piece
    more than there are separators. *)
Fixpoint split (sep : ascii) (s : string) : list string :=
  match s with
  | "" => [""]
  | String c s' =>
      if Ascii.eqb c sep then "" :: split sep s'
      else match split sep s' with
           | w :: ws => String c w :: ws
           | [] => [String c ""]
           end
  end.

(** How often a character occurs. *)
Fixpoint count_char (sep : ascii) (s : string) : nat :=
  match s with
  | "" => 0
  | String c s' => (if Ascii.eqb c sep then 1 else 0) + count_char sep s'
  end.

Definition lower (c : ascii) : ascii :=
  let n := nat_of_ascii c in
  if (65 <=? n) && (n <=? 90) then ascii_of_nat (n + 32) else c.

(** [s.toLowerCase()] *)
Fixpoint toLowerCase (s : string) : string :=
  match s with
  | "" => ""
  | String c s' => String (lower c) (toLowerCase s')
  end.

Definition upper (c : ascii) : ascii :=
  let n := nat_of_ascii c in
  if (97 <=? n) && (n <=? 122) then ascii_of_nat (n - 32) else c.

(** [s.charAt(0).toUpperCase() + s.slice(1)] *)
Definition capitalize (s : string) : string :=
  match s with
  | "" => ""
  | String c s' => String (upper c) s'
  end.

(** [s.replace(/\s/g, r)] *)
Fixpoint replace_ws (r : string) (s : string) : string :=
  match s with
  | "" => ""
  | String c s' =>
      if is_ws c then r +:+ replace_ws r s' else String c (replace_ws r s')
  end.

(** [a || b] on a string that may be [undefined]: the empty string is
    falsy. *)
Definition or_else (a : option string) (b : string) : string :=
  match a with
  | Some s => if String.eqb s "" then b else s
  | None => b
  end.

(** Template rendering of a boolean and of a number that may be
    [undefined]. *)
Definition of_bool (b : bool) : string := if b then "true" else "false".
Definition of_number (n : option N) : string :=
  match n with Some k => pretty k | None => "undefined" end.

End JsString.

(* ===================================================================== *)
(** ** Object literals read with a computed key                           *)
(* ===================================================================== *)

Module JsObject.

(** The properties every object literal inherits from [Object.prototype]. *)
Definition prototype_keys : list string :=
  [ "constructor"; "__defineGetter__"; "__defineSetter__"; "hasOwnProperty";
    "__lookupGetter__"; "__lookupSetter__"; "isPrototypeOf";
    "propertyIsEnumerable"; "toString"; "valueOf"; "__proto__";
    "toLocaleString" ].

(** What [obj[key]] evaluates to when it is not [undefined]: an own
    property, or a member found on the prototype. *)
Inductive Member (A : Type) : Type :=
| Own (a : A)
| Inherited (key : string).
Arguments Own {A} a.
Arguments Inherited {A} key.

(** [obj[key]]; [None] is [undefined]. *)
Definition get {A : Type} (obj : gmap string A) (key : string)
  : option (Member A) :=
  match obj !! key with
  | Some a => Some (Own a)
  | None =>
      if bool_decide (key ∈ prototype_keys) then Some (Inherited key)
      else None
  end.

(** [m.field] for a member: the inherited members have none of the fields
    of the literals of this program. *)
Definition field {A B : Type} (f : A -> B) (m : Member A) : option B :=
  match m with
  | Own a => Some (f a)
  | Inherited _ => None
  end.

(** How a template literal prints a member: the inherited ones are the
    prototype object itself or native functions. *)
Definition render (m : Member string) : string :=
  match m with
  | Own s => s
  | Inherited key =>
      if String.eqb key "__proto__" then "[object Object]"
      else
        "function " +:+
        (if String.eqb key "constructor" then "Object" else key) +:+
        "() { [native code] }"
  end.

End JsObject.

(* ===================================================================== *)
(** ** Data model                                                         *)
(* ===================================================================== *)

(** The structured data an adapter returns: the JSON object the prompts ask
    for, read at the shape the prompts give it. Each field may be absent. *)
Module Result.
Record GenerationResult : Type := {
  caption : option string;
  hashtags : option (list string);
  cta : option string;
  imagePrompt : option string;
  hook : option string;
  script : option string
}.
Definition empty : GenerationResult :=
  {| caption := None; hashtags := None; cta := None;
     imagePrompt := None; hook := None; script := None |}.
End Result.
Abbreviation GenerationResult := Result.GenerationResult.

(** [ContentStats] of [src/models/schemas.js]. *)
Record ContentStats : Type := {
  characters : nat;
  words : nat;
  readTime : string;
  engagementScore : string
}.

(** [TextPostRequest] and [ImagePostRequest] have the same fields. *)
Record PostRequest : Type := {
  topic : string;
  platform : string;
  tone : string;
  goal : string;
  includeHashtags : bool;
  includeCTA : bool;
  includeEmojis : bool
}.

Module Video.
Record Request : Type := {
  topic : string;
  platform : string;
  tone : string;
  goal : string;
  duration : string
}.
Record Response : Type := {
  success : bool;
  hook : string;
  script : string;
  cta : string;
  hashtags : list string;
  stats : ContentStats;
  creditsUsed : nat;
  creditsRemaining : nat
}.
End Video.

Module Text.
Record Response : Type := {
  success : bool;
  caption : string;
  hashtags : list string;
  cta : string;
  stats : ContentStats;
  creditsUsed : nat;
  creditsRemaining : nat
}.
End Text.

Module Image.
Record Response : Type := {
  success : bool;
  caption : string;
  hashtags : list string;
  cta : string;
  imagePrompt : string;
  stats : ContentStats;
  creditsUsed : nat;
  creditsRemaining : nat
}.
End Image.

(* ===================================================================== *)
(** ** Effects: provider calls, timers, exceptions                        *)
(* ===================================================================== *)

Inductive Provider : Type := OpenAI | Gemini | Groq.

(** One request sent to a provider's SDK. *)
Record Call : Type := {
  provider : Provider;
  model : string;
  messages : list string;
  max_tokens : nat
}.

Inductive Event : Type :=
| Called (c : Call)
| Waited (ms : nat).

(** What the SDK call settles to: a rejection with its message, or the text
    of the completion. *)
Inductive Reply : Type :=
| Threw (message : string)
| Replied (text : string).

(** The outside world: the reply to the [k]-th call of a run. *)
Definition World : Type := nat -> Call -> Reply.

Definition exn : Type := string.

Module Eff.

(** A computation reads the events so far and extends them; it ends in a
    value or in a thrown error. *)
Definition t (A : Type) : Type := list Event -> list Event * (exn + A).

Definition ret {A} (a : A) : t A := fun h => (h, inr a).

Definition throw {A} (e : exn) : t A := fun h => (h, inl e).

Definition bind {A B} (m : t A) (k : A -> t B) : t B :=
  fun h =>
    match m h with
    | (h', inr a) => k a h'
    | (h', inl e) => (h', inl e)
    end.

(** [try { m } catch (e) { handler }] *)
Definition try_catch {A} (m : t A) (handler : exn -> t A) : t A :=
  fun h =>
    match m h with
    | (h', inl e) => handler e h'
    | done => done
    end.

(** The calls among the events, in order, and their number. *)
Fixpoint called (h : list Event) : list Call :=
  match h with
  | [] => []
  | Called c :: rest => c :: called rest
  | Waited _ :: rest => called rest
  end.

Definition calls (h : list Event) : nat := length (called h).

(** [await sdk.create(...)] *)
Definition call (world : World) (c : Call) : t string :=
  fun h =>
    (h ++ [Called c],
     match world (calls h) c with
     | Threw m => inl m
     | Replied text => inr text
     end).

(** [await new Promise(resolve => setTimeout(resolve, ms))] *)
Definition wait (ms : nat) : t unit := fun h => (h ++ [Waited ms], inr tt).

(** A synchronous step that may throw. *)
Definition lift {A} (r : exn + A) : t A := fun h => (h, r).

(** [for (let i = from; ...; i++) body], [iterations] times at most; the
    body answers [Some v] for [return v] and [None] to go on. *)
Fixpoint for_range {A} (iterations from : nat) (body : nat -> t (option A))
  : t (option A) :=
  match iterations with
  | 0 => ret None
  | S n =>
      bind (body from) (fun r =>
        match r with
        | Some v => ret (Some v)
        | None => for_range n (S from) body
        end)
  end.

(** Running a request handler from an empty trace. *)
Definition run {A} (m : t A) : list Event * (exn + A) := m [].

End Eff.

Notation "x <- c1 ;; c2" := (Eff.bind c1 (fun x => c2))
  (at level 100, c1 at next level, right associativity).
Notation "c1 ;;; c2" := (Eff.bind c1 (fun _ => c2))
  (at level 100, right associativity).

(* ===================================================================== *)
(** ** [src/config/index.js]                                              *)
(* ===================================================================== *)

Module Config.
(** The API keys of [Settings]; an unset variable reads as the empty
    string. *)
Record Settings : Type := {
  openaiApiKey : string;
  googleApiKey : string;
  groqApiKey : string
}.
Definition truthy (key : string) : bool := negb (String.eqb key "").
End Config.

(* ===================================================================== *)
(** ** [src/services/openaiService.js]                                    *)
(* ===================================================================== *)

Module OpenAIService.
Import JsString.

(** The service instance: which clients the constructor left non-null. *)
Record t : Type := {
  openaiClient : bool;
  geminiClient : bool;
  groqClient : bool
}.

(** [constructor()]: a client is built for each key that is set, and stays
    [null] when the SDK's constructor throws ([sdk_ok] is [false]). *)
Definition constructor (settings : Config.Settings) (sdk_ok : Provider -> bool)
  : t :=
  {| openaiClient :=
       if Config.truthy (Config.openaiApiKey settings) then sdk_ok OpenAI
       else false;
     geminiClient :=
       if Config.truthy (Config.googleApiKey settings) then sdk_ok Gemini
       else false;
     groqClient :=
       if Config.truthy (Config.groqApiKey settings) then sdk_ok Groq
       else false |}.

Record PlatformContext : Type := {
  charLimit : N;
  hashtagLimit : N;
  bestPractices : string
}.

Definition instagram : PlatformContext :=
  {| charLimit := 2200; hashtagLimit := 30;
     bestPractices :=
       "Use emojis, line breaks, and storytelling. End with a CTA." |}.

Definition platforms : gmap string PlatformContext :=
  list_to_map
    [ ("instagram", instagram);
      ("linkedin",
       {| charLimit := 3000; hashtagLimit := 5;
          bestPractices :=
            "Professional tone, use bullet points, share insights and value." |});
      ("twitter",
       {| charLimit := 280; hashtagLimit := 3;
          bestPractices :=
            "Be concise, use hooks, create threads for longer content." |});
      ("facebook",
       {| charLimit := 63206; hashtagLimit := 10;
          bestPractices :=
            "Tell stories, ask questions, encourage engagement." |});
      ("tiktok",
       {| charLimit := 2200; hashtagLimit := 10;
          bestPractices :=
            "Trendy, casual, use popular hashtags and hooks." |});
      ("youtube",
       {| charLimit := 5000; hashtagLimit := 15;
          bestPractices :=
            "SEO-optimized descriptions, include timestamps and links." |}) ].

(** [platforms[platform] || platforms.instagram]: whatever the lookup finds
    is an object or a function, hence truthy; only [undefined] falls back. *)
Definition _getPlatformContext (platform : string)
  : JsObject.Member PlatformContext :=
  match JsObject.get platforms platform with
  | Some found => found
  | None => JsObject.Own instagram
  end.

(** The arguments of the one SDK call each adapter makes. *)
Definition request_of (p : Provider) (systemPrompt userPrompt : string)
  : Call :=
  match p with
  | OpenAI =>
      {| provider := OpenAI; model := "gpt-4o-mini";
         messages := [systemPrompt; userPrompt]; max_tokens := 1000 |}
  | Gemini =>
      let fullPrompt := systemPrompt +:+ LF +:+ LF +:+ userPrompt in
      {| provider := Gemini; model := "gemini-1.5-flash";
         messages := [fullPrompt]; max_tokens := 1000 |}
  | Groq =>
      let fullSystem :=
        systemPrompt +:+ LF +:+ LF +:+
        "IMPORTANT: Respond ONLY with valid JSON. No markdown, no code blocks, no extra text." in
      {| provider := Groq; model := "llama-3.1-8b-instant";
         messages := [fullSystem; userPrompt]; max_tokens := 1024 |}
  end.

Section Service.

(** [JSON.parse], followed by the reading of the parsed object as a
    [GenerationResult]: a [SyntaxError] is the left injection. *)
Variable JSON_parse : string -> exn + GenerationResult.
Variable world : World.
Variable this : t.

Definition _generateWithOpenAI (systemPrompt userPrompt : string)
  : Eff.t GenerationResult :=
  content <- Eff.call world (request_of OpenAI systemPrompt userPrompt) ;;
  Eff.lift (JSON_parse content).

Definition _cleanJsonResponse (text : string) : exn + GenerationResult :=
  let cleaned := text in
  let cleaned :=
    if startsWith cleaned "```json" then substring_from cleaned 7
    else cleaned in
  let cleaned :=
    if startsWith cleaned "```" then substring_from cleaned 3 else cleaned in
  let cleaned :=
    if endsWith cleaned "```"
    then substring cleaned 0 (String.length cleaned - 3)
    else cleaned in
  JSON_parse (trim cleaned).

Definition _generateWithGemini (systemPrompt userPrompt : string)
  : Eff.t GenerationResult :=
  text <- Eff.call world (request_of Gemini systemPrompt userPrompt) ;;
  Eff.lift (_cleanJsonResponse (trim text)).

Definition _generateWithGroq (systemPrompt userPrompt : string)
  : Eff.t GenerationResult :=
  text <- Eff.call world (request_of Groq systemPrompt userPrompt) ;;
  Eff.lift (_cleanJsonResponse (trim text)).

(** What an adapter makes of the text of a completion, and the outcome of
    an adapter whose call is the [k]-th of the run. *)
Definition parse_of (p : Provider) (text : string) : exn + GenerationResult :=
  match p with
  | OpenAI => JSON_parse text
  | Gemini | Groq => _cleanJsonResponse (trim text)
  end.

Definition outcome (k : nat) (c : Call) : exn + GenerationResult :=
  match world k c with
  | Threw message => inl message
  | Replied text => parse_of (provider c) text
  end.


Definition no_provider_message : string :=
  "No AI provider available. Configure OpenAI, Google, or Groq API key.".

Definition all_failed_message (e : exn) : string :=
  "All AI providers failed. Last error: " +:+ e.

Definition _generateContent (systemPrompt userPrompt : string)
  : Eff.t GenerationResult :=
  (* Try OpenAI first *)
  first <-
    (if openaiClient this then
       Eff.try_catch
         (r <- _generateWithOpenAI systemPrompt userPrompt ;; Eff.ret (Some r))
         (fun e => Eff.ret None)
     else Eff.ret None) ;;
  match first with
  | Some r => Eff.ret r
  | None =>
  (* Fallback to Gemini *)
  second <-
    (if geminiClient this then
       Eff.for_range 2 0 (fun attempt =>
         Eff.try_catch
           ((if 0 <? attempt then Eff.wait 2000 else Eff.ret tt) ;;;
            r <- _generateWithGemini systemPrompt userPrompt ;;
            Eff.ret (Some r))
           (fun e => Eff.ret None))
     else Eff.ret None) ;;
  match second with
  | Some r => Eff.ret r
  | None =>
  (* Final fallback to Groq *)
  third <-
    (if groqClient this then
       Eff.for_range 2 0 (fun attempt =>
         Eff.try_catch
           ((if 0 <? attempt then Eff.wait 2000 else Eff.ret tt) ;;;
            r <- _generateWithGroq systemPrompt userPrompt ;;
            Eff.ret (Some r))
           (fun e =>
              if attempt =? 1 then Eff.throw (all_failed_message e)
              else Eff.ret None))
     else Eff.ret None) ;;
  match third with
  | Some r => Eff.ret r
  | None => Eff.throw no_provider_message
  end end end.

(** [`${Math.max(1, Math.floor(words / 3))} sec`] *)
Definition readTime_of (words : nat) : string :=
  pretty (Nat.max 1 (words / 3)) +:+ " sec".

(** [result.hashtags?.length >= 5]; [undefined >= 5] is [false]. *)
Definition at_least_5 (hashtags : option (list string)) : bool :=
  match hashtags with
  | Some l => 5 <=? length l
  | None => false
  end.

Definition text_systemPrompt (request : PostRequest) : string :=
  let platformCtx := _getPlatformContext (platform request) in
  lines
    [ "You are an expert social media content creator.";
      "Create engaging content for " +:+ platform request +:+ ".";
      "";
      "Platform Guidelines:";
      "- Character limit: " +:+
        of_number (JsObject.field charLimit platformCtx);
      "- Hashtag limit: " +:+
        of_number (JsObject.field hashtagLimit platformCtx);
      "- Best practices: " +:+
        default "undefined" (JsObject.field bestPractices platformCtx);
      "";
      "Content Requirements:";
      "- Tone: " +:+ tone request;
      "- Goal: " +:+ goal request;
      "- Include emojis: " +:+ of_bool (includeEmojis request);
      "- Generate hashtags: " +:+ of_bool (includeHashtags request);
      "- Include CTA: " +:+ of_bool (includeCTA request);
      "";
      "Respond with valid JSON:";
      "{";
      "    " +:+ quoted "caption" +:+ ": " +:+
        quoted "The main caption text" +:+ ",";
      "    " +:+ quoted "hashtags" +:+ ": [" +:+ quoted "#hashtag1" +:+ ", "
        +:+ quoted "#hashtag2" +:+ "],";
      "    " +:+ quoted "cta" +:+ ": " +:+ quoted "Call to action text";
      "}" ].

Definition text_userPrompt (request : PostRequest) : string :=
  lines
    [ "Create a " +:+ tone request +:+ " social media post for " +:+
        platform request +:+ " about:";
      "";
      topic request;
      "";
      "Goal: " +:+ goal request +:+
        ". Make it engaging and optimized for the platform." ].

(** The object [generateTextPost] returns once the result is there. *)
Definition text_response (request : PostRequest) (result : GenerationResult)
  : Text.Response :=
  let caption := or_else (Result.caption result) "" in
  let words := length (split " " caption) in
  {| Text.success := true;
     Text.caption := caption;
     Text.hashtags :=
       if includeHashtags request then default [] (Result.hashtags result)
       else [];
     Text.cta :=
       if includeCTA request then or_else (Result.cta result) "" else "";
     Text.stats :=
       {| characters := String.length caption;
          words := words;
          readTime := readTime_of words;
          engagementScore :=
            if at_least_5 (Result.hashtags result) then "High" else "Medium" |};
     Text.creditsUsed := 1;
     Text.creditsRemaining := 149 |}.

Definition generateTextPost (request : PostRequest) : Eff.t Text.Response :=
  result <- _generateContent (text_systemPrompt request)
                             (text_userPrompt request) ;;
  Eff.ret (text_response request result).

Definition image_systemPrompt (request : PostRequest) : string :=
  lines
    [ "You are an expert social media content creator.";
      "Create engaging content for " +:+ platform request +:+
        " with an image.";
      "";
      "Respond with valid JSON:";
      "{";
      "    " +:+ quoted "caption" +:+ ": " +:+ quoted "The caption text"
        +:+ ",";
      "    " +:+ quoted "hashtags" +:+ ": [" +:+ quoted "#hashtag1" +:+ ", "
        +:+ quoted "#hashtag2" +:+ "],";
      "    " +:+ quoted "cta" +:+ ": " +:+ quoted "Call to action" +:+ ",";
      "    " +:+ quoted "imagePrompt" +:+ ": " +:+
        quoted "Detailed prompt for AI image generation";
      "}" ].

Definition image_userPrompt (request : PostRequest) : string :=
  lines
    [ "Create a " +:+ tone request +:+ " image post for " +:+
        platform request +:+ " about:";
      "";
      topic request;
      "";
      "Goal: " +:+ goal request +:+
        ". Include a detailed image generation prompt." ].

Definition image_response (request : PostRequest) (result : GenerationResult)
  : Image.Response :=
  let caption := or_else (Result.caption result) "" in
  let words := length (split " " caption) in
  {| Image.success := true;
     Image.caption := caption;
     Image.hashtags := default [] (Result.hashtags result);
     Image.cta := or_else (Result.cta result) "";
     Image.imagePrompt := or_else (Result.imagePrompt result) "";
     Image.stats :=
       {| characters := String.length caption;
          words := words;
          readTime := readTime_of words;
          engagementScore := "High" |};
     Image.creditsUsed := 2;
     Image.creditsRemaining := 23 |}.

Definition generateImagePost (request : PostRequest) : Eff.t Image.Response :=
  result <- _generateContent (image_systemPrompt request)
                             (image_userPrompt request) ;;
  Eff.ret (image_response request result).

Definition video_systemPrompt (request : Video.Request) : string :=
  lines
    [ "You are an expert video content creator.";
      "Create a " +:+ Video.duration request +:+ " video script for " +:+
        Video.platform request +:+ ".";
      "";
      "Respond with valid JSON:";
      "{";
      "    " +:+ quoted "hook" +:+ ": " +:+
        quoted "Attention-grabbing opening line" +:+ ",";
      "    " +:+ quoted "script" +:+ ": " +:+
        quoted "Main video script content" +:+ ",";
      "    " +:+ quoted "cta" +:+ ": " +:+
        quoted "Call to action at the end" +:+ ",";
      "    " +:+ quoted "hashtags" +:+ ": [" +:+ quoted "#hashtag1" +:+ ", "
        +:+ quoted "#hashtag2" +:+ "]";
      "}" ].

Definition video_userPrompt (request : Video.Request) : string :=
  lines
    [ "Create a " +:+ Video.tone request +:+ " video script for " +:+
        Video.platform request +:+ " about:";
      "";
      Video.topic request;
      "";
      "Duration: " +:+ Video.duration request;
      "Goal: " +:+ Video.goal request ].

Definition video_response (request : Video.Request)
  (result : GenerationResult) : Video.Response :=
  let script := or_else (Result.script result) "" in
  let words := length (split " " script) in
  {| Video.success := true;
     Video.hook := or_else (Result.hook result) "";
     Video.script := script;
     Video.cta := or_else (Result.cta result) "";
     Video.hashtags := default [] (Result.hashtags result);
     Video.stats :=
       {| characters := String.length script;
          words := words;
          readTime := readTime_of words;
          engagementScore := "High" |};
     Video.creditsUsed := 3;
     Video.creditsRemaining := 7 |}.

Definition generateVideoScript (request : Video.Request)
  : Eff.t Video.Response :=
  result <- _generateContent (video_systemPrompt request)
                             (video_userPrompt request) ;;
  Eff.ret (video_response request result).

End Service.
End OpenAIService.

(* ===================================================================== *)
(** ** [src/services/geminiService.js]                                    *)
(* ===================================================================== *)

Module UGC.
(** [UGCAdRequest], as the handler passes it on. *)
Record Request : Type := {
  productName : string;
  productDescription : string;
  adType : string;
  imageFormat : string;
  visualStyle : string;
  mood : string;
  targetAudience : option string;
  additionalDetails : option string
}.
Record Stats : Type := {
  estimatedReach : string;
  engagementRate : string;
  recommendedBudget : string;
  bestTimeToPost : string
}.
(** What [generateUGCAdContent] resolves to: the parsed object with its
    [stats] added, or the object literal of the fallback. *)
Record Content : Type := {
  imagePrompt : option string;
  caption : option string;
  hashtags : option (list string);
  cta : option string;
  stats : Stats
}.
End UGC.

Module GeminiService.
Import JsString.

Record t : Type := {
  apiKey : string;
  client : bool;
  genaiClient : bool
}.

(** [constructor(apiKey)]: both clients are built in one [try] block, the
    text client first. *)
Definition constructor (apiKey : string) (text_sdk_ok image_sdk_ok : bool)
  : t :=
  if Config.truthy apiKey then
    {| apiKey := apiKey; client := text_sdk_ok;
       genaiClient := text_sdk_ok && image_sdk_ok |}
  else {| apiKey := apiKey; client := false; genaiClient := false |}.

Definition isConfigured (this : t) : bool :=
  client this && Config.truthy (apiKey this).

Definition not_configured_message : string :=
  "Gemini API is not configured. Please set GOOGLE_API_KEY in .env".

Record FormatInfo : Type := {
  aspect : string;
  dimensions : string;
  platforms : string
}.

Definition square : FormatInfo :=
  {| aspect := "1:1"; dimensions := "1080x1080";
     platforms := "Instagram, Facebook" |}.

Definition formatMap : gmap string FormatInfo :=
  list_to_map
    [ ("square", square);
      ("portrait",
       {| aspect := "4:5"; dimensions := "1080x1350";
          platforms := "Instagram Feed" |});
      ("story",
       {| aspect := "9:16"; dimensions := "1080x1920";
          platforms := "Stories, Reels" |});
      ("landscape",
       {| aspect := "16:9"; dimensions := "1920x1080";
          platforms := "YouTube, Twitter" |}) ].

Definition styleMap : gmap string string :=
  list_to_map
    [ ("authentic", "Raw, real, unpolished");
      ("minimal", "Clean, simple, modern");
      ("vibrant", "Bold, colorful, energetic");
      ("professional", "Polished, studio-quality") ].

Definition adTypeMap : gmap string string :=
  list_to_map
    [ ("testimonial", "Testimonial");
      ("before-after", "Before/After");
      ("unboxing", "Unboxing");
      ("lifestyle", "Lifestyle");
      ("product-showcase", "Product Focus");
      ("user-story", "User Story") ].

Definition fixed_stats : UGC.Stats :=
  {| UGC.estimatedReach := "5K-15K";
     UGC.engagementRate := "3.5-7%";
     UGC.recommendedBudget := "$50-200";
     UGC.bestTimeToPost := "Mon-Fri, 6-9 PM" |}.

(** [formatMap[imageFormat] || formatMap['square']] *)
Definition formatInfo_of (imageFormat : string) : JsObject.Member FormatInfo :=
  default (JsObject.Own square) (JsObject.get formatMap imageFormat).

(** [styleMap[visualStyle] || 'authentic'] *)
Definition styleDesc_of (visualStyle : string) : JsObject.Member string :=
  default (JsObject.Own "authentic") (JsObject.get styleMap visualStyle).

(** [adTypeMap[adType] || adType] *)
Definition adTypeName_of (adType : string) : JsObject.Member string :=
  default (JsObject.Own adType) (JsObject.get adTypeMap adType).

Definition undefined_or (v : option string) : string :=
  default "undefined" v.

(** [x ? `label: ${x}` : ''] *)
Definition optional_line (label : string) (x : option string) : string :=
  match x with
  | Some v => if String.eqb v "" then "" else label +:+ ": " +:+ v
  | None => ""
  end.

Definition ugc_prompt (request : UGC.Request) : string :=
  let formatInfo := formatInfo_of (UGC.imageFormat request) in
  let styleDesc := styleDesc_of (UGC.visualStyle request) in
  let adTypeName := adTypeName_of (UGC.adType request) in
  let mood := UGC.mood request in
  lines
    [ "You are a UGC (User Generated Content) ad expert. Generate comprehensive ad content for the following product:";
      "";
      "Product: " +:+ UGC.productName request;
      "Description: " +:+ UGC.productDescription request;
      "Ad Type: " +:+ JsObject.render adTypeName;
      "Visual Style: " +:+ JsObject.render styleDesc;
      "Mood: " +:+ capitalize mood;
      "Image Format: " +:+
        undefined_or (JsObject.field dimensions formatInfo) +:+ " (" +:+
        undefined_or (JsObject.field aspect formatInfo) +:+ ")";
      "Platform: " +:+ undefined_or (JsObject.field platforms formatInfo);
      optional_line "Target Audience" (UGC.targetAudience request);
      optional_line "Additional Details" (UGC.additionalDetails request);
      "";
      "Please provide the following in JSON format:";
      "";
      "1. **imagePrompt**: A detailed, creative prompt for AI image generation (150-250 words). Make it look authentic and UGC-style, not overly polished. Include specific details about setting, lighting, composition, and the product in use.";
      "";
      "2. **caption**: An engaging social media caption (100-200 words) that matches the "
        +:+ mood +:+ " tone and " +:+ JsObject.render adTypeName +:+
        " style. Make it conversational and authentic, as if written by a real user.";
      "";
      "3. **hashtags**: An array of 8-12 relevant, trending hashtags (mix of popular and niche).";
      "";
      "4. **cta**: A compelling call-to-action (1-2 sentences).";
      "";
      "Respond ONLY with valid JSON in this exact format:";
      "{";
      "  " +:+ quoted "imagePrompt" +:+ ": " +:+
        quoted "detailed prompt here..." +:+ ",";
      "  " +:+ quoted "caption" +:+ ": " +:+
        quoted "engaging caption here..." +:+ ",";
      "  " +:+ quoted "hashtags" +:+ ": [" +:+ quoted "#hashtag1" +:+ ", "
        +:+ quoted "#hashtag2" +:+ ", ...],";
      "  " +:+ quoted "cta" +:+ ": " +:+ quoted "call to action here...";
      "}" ].

(** The object literal of the [catch] block. [adTypeName.toLowerCase()]
    is a [TypeError] when the ad type named an inherited member. *)
Definition fallback (request : UGC.Request) : exn + UGC.Content :=
  let productName := UGC.productName request in
  let productDescription := UGC.productDescription request in
  match adTypeName_of (UGC.adType request) with
  | JsObject.Inherited _ => inl "adTypeName.toLowerCase is not a function"
  | JsObject.Own adTypeName =>
      inr
        {| UGC.imagePrompt :=
             Some ("Create a realistic UGC-style " +:+ toLowerCase adTypeName
                   +:+ " ad for " +:+ productName +:+ ". " +:+
                   productDescription +:+ ". Visual style: " +:+
                   JsObject.render (styleDesc_of (UGC.visualStyle request))
                   +:+ ". Mood: " +:+ UGC.mood request +:+
                   ". Make it look authentic, natural, and user-generated.");
           UGC.caption :=
             Some ("Just tried " +:+ productName +:+ " and I'm obsessed! 😍 "
                   +:+ substring productDescription 0 100 +:+
                   "... You NEED to try this!");
           UGC.hashtags :=
             Some [ "#" +:+ replace_ws "" productName; "#UGC"; "#Viral";
                    "#MustTry"; "#ProductReview" ];
           UGC.cta :=
             Some ("Tap the link in bio to get " +:+ productName +:+ " now!");
           UGC.stats := fixed_stats |}
  end.

(** One part of a candidate of the image model's response. *)
Record Part : Type := {
  text : option string;
  inlineData : option (string * option string)
}.

Inductive ImageReply : Type :=
| ImageThrew (message : string)
| ImageParts (parts : list Part).

Record ImageData : Type := { data : string; mimeType : string }.

Record ImageResult : Type := {
  success : bool;
  error : option string;
  images : list ImageData
}.

(** The loop over [response.candidates[0].content.parts]. *)
Fixpoint extract_images (parts : list Part) : list ImageData :=
  match parts with
  | [] => []
  | part :: rest =>
      if Config.truthy (default "" (text part)) then extract_images rest
      else
        match inlineData part with
        | Some (imageData, mime) =>
            let mimeType := or_else mime "image/png" in
            {| data := "data:" +:+ mimeType +:+ ";base64," +:+ imageData;
               mimeType := mimeType |} :: extract_images rest
        | None => extract_images rest
        end
  end.

Definition no_images_message : string :=
  "No images were generated. The model may have blocked the request due to safety filters.".

(** [generateImage(prompt, aspectRatio, numberOfImages)]; the reply of the
    image model is given. Everything after the configuration check is
    caught and reported in the result. *)
Definition generateImage (this : t) (reply : ImageReply) (prompt : string)
  : exn + ImageResult :=
  if negb (isConfigured this) then inl not_configured_message
  else
    let failed (message : string) :=
      {| success := false; error := Some message; images := [] |} in
    inr
      (if negb (genaiClient this)
       then failed "Cannot read properties of null (reading 'models')"
       else
         match reply with
         | ImageThrew message => failed message
         | ImageParts parts =>
             match extract_images parts with
             | [] => failed no_images_message
             | images =>
                 {| success := true; error := None; images := images |}
             end
         end).

Definition request_of (prompt : string) : Call :=
  {| provider := Gemini; model := "gemini-1.5-flash";
     messages := [prompt]; max_tokens := 2048 |}.

(** The fence stripping of the [try] block. *)
Definition strip_fences (text : string) : string :=
  let responseText := trim text in
  let responseText :=
    if startsWith responseText "```json" then substring_from responseText 7
    else responseText in
  let responseText :=
    if startsWith responseText "```" then substring_from responseText 3
    else responseText in
  let responseText :=
    if endsWith responseText "```"
    then substring responseText 0 (String.length responseText - 3)
    else responseText in
  trim responseText.

(** [parsedResult.stats = {...}; return parsedResult] *)
Definition with_stats (parsedResult : GenerationResult) : UGC.Content :=
  {| UGC.imagePrompt := Result.imagePrompt parsedResult;
     UGC.caption := Result.caption parsedResult;
     UGC.hashtags := Result.hashtags parsedResult;
     UGC.cta := Result.cta parsedResult;
     UGC.stats := fixed_stats |}.

Section Service.

Variable JSON_parse : string -> exn + GenerationResult.
Variable world : World.
Variable this : t.

(** The body of the [try] block of [generateUGCAdContent]. *)
Definition request_content (prompt : string) : Eff.t UGC.Content :=
  text <- Eff.call world (request_of prompt) ;;
  parsedResult <- Eff.lift (JSON_parse (strip_fences text)) ;;
  Eff.ret (with_stats parsedResult).

Definition generateUGCAdContent (request : UGC.Request) : Eff.t UGC.Content :=
  if negb (isConfigured this) then Eff.throw not_configured_message
  else
    Eff.try_catch
      (request_content (ugc_prompt request))
      (fun error => Eff.lift (fallback request)).

End Service.
End GeminiService.

(* ===================================================================== *)
(** ** The content router: [POST /content/generate/ugc-ad]                *)
(* ===================================================================== *)

Module ContentRoutes.
Import JsString.

Record UgcAdBody : Type := {
  success : bool;
  imagePrompt : string;
  caption : option string;
  hashtags : option (list string);
  cta : option string;
  stats : UGC.Stats;
  creditsUsed : nat;
  creditsRemaining : nat;
  generatedImageUrl : option string
}.

(** What the handler sends: [res.json(body)], or status 500 with the
    message of the error. *)
Inductive Response : Type :=
| Json (body : UgcAdBody)
| Status500 (error : string).

Definition formatToAspect : gmap string string :=
  list_to_map
    [ ("square", "1:1"); ("portrait", "4:5"); ("story", "9:16");
      ("landscape", "16:9") ].

Section Handler.

Variable JSON_parse : string -> exn + GenerationResult.
Variable world : World.
Variable geminiService : GeminiService.t.
(** The reply of the image model, whether the storage service is
    configured, and what the upload settles to. The two inserts into the
    database, whose errors are caught and logged, are left out. *)
Variable image_reply : GeminiService.ImageReply.
Variable supabase_configured : bool.
Variable upload : exn + string.

Definition generatedImageUrl_of (imageResult : GeminiService.ImageResult)
  : option string :=
  if GeminiService.success imageResult then
    match GeminiService.images imageResult with
    | first :: _ =>
        let imageBase64 := GeminiService.data first in
        if supabase_configured then
          match upload with
          | inr url => Some url
          | inl _ => Some imageBase64
          end
        else Some imageBase64
    | [] => None
    end
  else None.

Definition generate_ugc_ad (request : UGC.Request) : Eff.t Response :=
  Eff.try_catch
    (result <- GeminiService.generateUGCAdContent JSON_parse world
                 geminiService request ;;
     match UGC.imagePrompt result with
     | None =>
         Eff.throw "Cannot read properties of undefined (reading 'substring')"
     | Some imagePrompt =>
         imageResult <- Eff.lift
           (GeminiService.generateImage geminiService image_reply
              imagePrompt) ;;
         Eff.ret
           (Json
              {| success := true;
                 imagePrompt := imagePrompt;
                 caption := UGC.caption result;
                 hashtags := UGC.hashtags result;
                 cta := UGC.cta result;
                 stats := UGC.stats result;
                 creditsUsed := 2;
                 creditsRemaining := 1000;
                 generatedImageUrl := generatedImageUrl_of imageResult |})
     end)
    (fun error =>
       Eff.ret (Status500 (or_else (Some error) "UGC ad generation failed"))).

End Handler.
End ContentRoutes.

(* ===================================================================== *)
(** ** The notions of the specification                                   *)
(* ===================================================================== *)

Module Spec.
Import JsString.

(** The number of whitespace-delimited tokens of a text: its maximal runs
    of characters that are not white space. *)
Fixpoint tokens_from (in_token : bool) (s : string) : nat :=
  match s with
  | "" => 0
  | String c s' =>
      if is_ws c then tokens_from false s'
      else (if in_token then 0 else 1) + tokens_from true s'
  end.

Definition whitespace_tokens (s : string) : nat := tokens_from false s.

(** A text whose tokens are separated by exactly one space each, with no
    other white space: no leading, trailing or doubled space, and at least
    one token. *)
Fixpoint single_spaced_from (after_space : bool) (s : string) : bool :=
  match s with
  | "" => negb after_space
  | String c s' =>
      if is_ws c
      then Ascii.eqb c " " && negb after_space && single_spaced_from true s'
      else single_spaced_from false s'
  end.

Definition single_spaced (s : string) : bool := single_spaced_from true s.

(** The engagement heuristic, from the hashtags the provider returned. *)
Definition engagement_of (provider_hashtags : list string) : string :=
  if 5 <=? length provider_hashtags then "High" else "Medium".

(** A response wrapped in a fence with the [json] tag. *)
Definition fenced (t : string) : string :=
  "```json" +:+ LF +:+ t +:+ LF +:+ "```".

(** A text that neither begins nor ends with a fence. Every JSON text is
    one: it begins with white space or one of the characters that open a
    JSON value, and ends with white space or one that closes a value. *)
Definition fence_free (t : string) : bool :=
  negb (startsWith t "```") && negb (endsWith t "```").

(** The three statistics computed from the primary text: its length, the
    number of pieces between its spaces, and the read time. *)
Definition stats_of (text : string) : nat * nat * string :=
  let pieces := S (count_char " " text) in
  (String.length text, pieces,
   pretty (Nat.max 1 (pieces / 3)) +:+ " sec").

Definition counts (st : ContentStats) : nat * nat * string :=
  (characters st, words st, readTime st).

(** [n] attempts of one call, with the fixed delay of two seconds before
    every attempt but the first. *)
Fixpoint attempts (c : Call) (n : nat) : list Event :=
  match n with
  | 0 => []
  | S m =>
      match m with
      | 0 => [Called c]
      | S _ => attempts c m ++ [Waited 2000; Called c]
      end
  end.

(** The adapters with a client, in priority order. *)
Definition configured_adapters (this : OpenAIService.t) : list Provider :=
  (if OpenAIService.openaiClient this then [OpenAI] else []) ++
  (if OpenAIService.geminiClient this then [Gemini] else []) ++
  (if OpenAIService.groqClient this then [Groq] else []).

Definition rank (p : Provider) : nat :=
  match p with OpenAI => 0 | Gemini => 1 | Groq => 2 end.

Definition same_provider (p q : Provider) : bool :=
  match p, q with
  | OpenAI, OpenAI | Gemini, Gemini | Groq, Groq => true
  | _, _ => false
  end.

(** How often a run called a provider. *)
Fixpoint attempts_on (p : Provider) (trace : list Event) : nat :=
  match trace with
  | [] => 0
  | Called c :: rest =>
      (if same_provider (provider c) p then 1 else 0) + attempts_on p rest
  | Waited _ :: rest => attempts_on p rest
  end.

(** The first configured adapter is tried exactly once. *)
Definition first_adapter_tried_once (this : OpenAIService.t)
  (trace : list Event) : Prop :=
  forall p, head (configured_adapters this) = Some p ->
            attempts_on p trace = 1.

End Spec.

(* ===================================================================== *)
(** ** Concrete worlds                                                    *)
(* ===================================================================== *)

Module Scenario.
Import JsString.

(** [JSON.parse] on the texts of a scenario: the listed texts parse to the
    listed objects, and every other text of the scenario is not JSON. *)
Fixpoint json_table (entries : list (string * GenerationResult)) (s : string)
  : exn + GenerationResult :=
  match entries with
  | [] => inl "Unexpected token in JSON at position 0"
  | (text, r) :: rest =>
      if String.eqb text s then inr r else json_table rest s
  end.

(** The replies to the successive calls of a run; calls beyond the list
    are rejected. *)
Definition replies (l : list Reply) : World :=
  fun k _ => default (Threw "fetch failed") (l !! k).

Definition clients (openai gemini groq : bool) : OpenAIService.t :=
  {| OpenAIService.openaiClient := openai;
     OpenAIService.geminiClient := gemini;
     OpenAIService.groqClient := groq |}.

Definition post (hashtags cta : bool) : PostRequest :=
  {| topic := "new running shoes"; platform := "twitter";
     tone := "promotional"; goal := "conversion";
     includeHashtags := hashtags; includeCTA := cta; includeEmojis := true |}.

Definition video : Video.Request :=
  {| Video.topic := "new running shoes"; Video.platform := "tiktok";
     Video.tone := "casual"; Video.goal := "engagement";
     Video.duration := "30s" |}.

(** [{"caption": "Run faster, feel lighter.", "hashtags": [...], "cta":
    "Shop now!"}] and the object it parses to. *)
Definition shoes_json : string :=
  "{" +:+ quoted "caption" +:+ ": " +:+ quoted "Run faster, feel lighter."
  +:+ ", " +:+ quoted "hashtags" +:+ ": [" +:+ quoted "#run" +:+ ","
  +:+ quoted "#shoes" +:+ "," +:+ quoted "#fitness" +:+ "," +:+
  quoted "#gear" +:+ "," +:+ quoted "#new" +:+ "], " +:+ quoted "cta" +:+
  ": " +:+ quoted "Shop now!" +:+ "}".

Definition shoes : GenerationResult :=
  {| Result.caption := Some "Run faster, feel lighter.";
     Result.hashtags := Some ["#run"; "#shoes"; "#fitness"; "#gear"; "#new"];
     Result.cta := Some "Shop now!";
     Result.imagePrompt := None; Result.hook := None;
     Result.script := None |}.

(** [{"caption": "Big sale", "hashtags": ["#sale"], "cta": "Buy",
    "imagePrompt": "A shop window"}] *)
Definition sale_json : string :=
  "{" +:+ quoted "caption" +:+ ": " +:+ quoted "Big sale" +:+ ", " +:+
  quoted "hashtags" +:+ ": [" +:+ quoted "#sale" +:+ "], " +:+ quoted "cta"
  +:+ ": " +:+ quoted "Buy" +:+ ", " +:+ quoted "imagePrompt" +:+ ": " +:+
  quoted "A shop window" +:+ "}".

Definition sale : GenerationResult :=
  {| Result.caption := Some "Big sale";
     Result.hashtags := Some ["#sale"];
     Result.cta := Some "Buy";
     Result.imagePrompt := Some "A shop window"; Result.hook := None;
     Result.script := None |}.

Definition JSON_parse : string -> exn + GenerationResult :=
  json_table [(shoes_json, shoes); (sale_json, sale)].

(** A caption with a doubled space, as it comes back from [JSON.parse]. *)
Definition doubled : GenerationResult :=
  {| Result.caption := Some "Big  sale";
     Result.hashtags := Some ["#sale"];
     Result.cta := Some "Buy";
     Result.imagePrompt := None; Result.hook := None;
     Result.script := None |}.


Definition gemini : GeminiService.t :=
  GeminiService.constructor "AIza-key" true true.

(** One inline image in the reply of the image model. *)
Definition picture : GeminiService.ImageReply :=
  GeminiService.ImageParts
    [ {| GeminiService.text := None;
         GeminiService.inlineData := Some ("iVBORw0KGgo=", None) |} ].

Definition ad : UGC.Request :=
  {| UGC.productName := "Trail Runner";
     UGC.productDescription := "Light shoes for long runs on rough ground";
     UGC.adType := "testimonial";
     UGC.imageFormat := "square";
     UGC.visualStyle := "authentic";
     UGC.mood := "excited";
     UGC.targetAudience := None;
     UGC.additionalDetails := None |}.

End Scenario.

(* ===================================================================== *)
(** ** The fallback chain as a schedule of attempts                       *)
(* ===================================================================== *)

Module Chain.
Section Chain.

Variable JSON_parse : string -> exn + GenerationResult.
Variable world : World.
Variable this : OpenAIService.t.
Variables systemPrompt userPrompt : string.

(** The attempts [_generateContent] is prepared to make, in order: the
    provider and the value of the loop variable [attempt]. *)
Definition schedule : list (Provider * nat) :=
  (if OpenAIService.openaiClient this then [(OpenAI, 0)] else []) ++
  (if OpenAIService.geminiClient this then [(Gemini, 0); (Gemini, 1)]
   else []) ++
  (if OpenAIService.groqClient this then [(Groq, 0); (Groq, 1)] else []).

(** The one [catch] block that rethrows. *)
Definition rethrows (p : Provider) (attempt : nat) : bool :=
  match p with
  | Groq => attempt =? 1
  | OpenAI | Gemini => false
  end.

(** Following a schedule from the events [h]: each attempt waits first
    when it is a retry, then calls; the first success ends the run. *)
Fixpoint follow (todo : list (Provider * nat)) (h : list Event)
  : list Event * (exn + GenerationResult) :=
  match todo with
  | [] => (h, inl OpenAIService.no_provider_message)
  | (p, attempt) :: rest =>
      let c := OpenAIService.request_of p systemPrompt userPrompt in
      let h' := h ++ (if 0 <? attempt then [Waited 2000] else []) ++ [Called c] in
      match OpenAIService.outcome JSON_parse world (Eff.calls h) c with
      | inr r => (h', inr r)
      | inl e =>
          if rethrows p attempt
          then (h', inl (OpenAIService.all_failed_message e))
          else follow rest h'
      end
  end.

End Chain.
End Chain.

(* ===================================================================== *)
(** ** The rest of the request path                                       *)
(* ===================================================================== *)

(** [Platform] of [src/models/schemas.js]. *)
Module Schemas.
Definition Platform : list string :=
  ["instagram"; "linkedin"; "twitter"; "facebook"; "tiktok"; "youtube"].
End Schemas.

Module Trace.
(** The time a run spent in its timers, in milliseconds. *)
Fixpoint total_wait (trace : list Event) : nat :=
  match trace with
  | [] => 0
  | Waited ms :: rest => ms + total_wait rest
  | Called _ :: rest => total_wait rest
  end.

End Trace.

Module Keys.
(** The key of [Settings] a provider's client is built from. *)
Definition key_of (settings : Config.Settings) (p : Provider) : string :=
  match p with
  | OpenAI => Config.openaiApiKey settings
  | Gemini => Config.googleApiKey settings
  | Groq => Config.groqApiKey settings
  end.

End Keys.

Module Fence.
(** A text made of white space only. *)
Fixpoint blank (s : string) : bool :=
  match s with
  | "" => true
  | String c s' => JsString.is_ws c && blank s'
  end.

(** A response wrapped in a fence without a tag, and one whose closing
    fence is missing. *)
Definition plain (t : string) : string :=
  "```" +:+ JsString.LF +:+ t +:+ JsString.LF +:+ "```".
Definition unclosed (t : string) : string :=
  "```json" +:+ JsString.LF +:+ t.
End Fence.

(** The storage service, as far as the content router uses it. *)
Module SupabaseService.
Import JsString.

Record t : Type := { client : bool }.

(** [constructor()]: a client is created when both settings are set, and
    stays [null] when [createClient] throws. *)
Definition constructor (supabaseUrl supabaseKey : string) (sdk_ok : bool)
  : t :=
  {| client :=
       if Config.truthy supabaseUrl && Config.truthy supabaseKey then sdk_ok
       else false |}.

Definition isConfigured (this : t) : bool := client this.

(** The payload [uploadImageToStorage] decodes: what follows the first
    comma of a data URI, the whole text otherwise; [None] is
    [undefined]. *)
Definition base64Data_of (imageBase64 : string) : option string :=
  if startsWith imageBase64 "data:" then split "," imageBase64 !! 1
  else Some imageBase64.

(** [uploadImageToStorage(imageBase64, filename, bucket)]; [storage] is
    what the upload of a payload settles to: the public URL, or the error
    of the storage API. *)
Definition uploadImageToStorage (this : t) (storage : string -> exn + string)
  (imageBase64 : string) : exn + string :=
  if negb (isConfigured this) then inl "Supabase is not configured"
  else
    match base64Data_of imageBase64 with
    | None =>
        inl ("Supabase upload failed: " +:+
             "Cannot read properties of undefined (reading 'length')")
    | Some base64Data =>
        match storage base64Data with
        | inl e => inl ("Supabase upload failed: " +:+ e)
        | inr publicUrl => inr publicUrl
        end
    end.

End SupabaseService.

(** [src/middleware/auth.js] *)
Module Auth.
Import JsString.

Record User : Type := { id : string; email : option string }.

(** What [client.auth.getUser(token)] settles to. *)
Inductive GetUser : Type :=
| GetUserThrew (message : string)
| GetUserResult (error : option string) (user : option User).

(** [authenticateUser]: the value it leaves in [req.user]; it always calls
    [next()]. *)
Definition authenticateUser (supabase_configured : bool)
  (authorization : option string) (getUser : string -> GetUser)
  : option User :=
  if negb supabase_configured then None
  else
    match authorization with
    | None => None
    | Some authHeader =>
        if negb (Config.truthy authHeader)
           || negb (startsWith authHeader "Bearer ")
        then None
        else
          let token := substring_from authHeader 7 in
          match getUser token with
          | GetUserThrew _ => None
          | GetUserResult (Some _) _ => None
          | GetUserResult None None => None
          | GetUserResult None (Some user) => Some user
          end
    end.

(** [requireAuth]: the status and message it answers with, or [None] when
    it calls [next()]. *)
Definition requireAuth (user : option User) : option (nat * string) :=
  match user with
  | None => Some (401, "Authentication required. Please log in.")
  | Some _ => None
  end.

End Auth.

(** The handlers of [POST /content/generate/text], [/image] and [/video]:
    the request is the validated one; the insert into the history, whose
    errors are caught and logged, is left out. *)
Module ContentHandlers.
Import JsString.

Inductive Response (A : Type) : Type :=
| Json (body : A)
| Status500 (error : string).
Arguments Json {A} body.
Arguments Status500 {A} error.

Section Handlers.

Variable JSON_parse : string -> exn + GenerationResult.
Variable world : World.
Variable openaiService : OpenAIService.t.




End Handlers.
End ContentHandlers.

(* ===================================================================== *)
(** ** Properties of the string functions                                 *)
(* ===================================================================== *)

Section StringFacts.
Import JsString.

Lemma length_app (x y : string) :
  String.length (x +:+ y) = String.length x + String.length y.
Proof. induction x as [|c x IH]; simpl; [reflexivity | now rewrite IH]. Qed.

Lemma length_drop (n : nat) (s : string) :
  String.length (drop n s) = String.length s - n.
Proof.
  revert s; induction n as [|n IH]; intros s.
  - simpl. lia.
  - destruct s as [|c s]; simpl; [reflexivity | apply IH].
Qed.

Lemma take_length (s : string) : take (String.length s) s = s.
Proof. induction s as [|c s IH]; simpl; [reflexivity | now rewrite IH]. Qed.

Lemma drop_beyond (n : nat) (s : string) :
  drop (Nat.min n (String.length s)) s = drop n s.
Proof.
  revert s; induction n as [|n IH]; intros [|c s]; simpl; try reflexivity.
  apply IH.
Qed.

Lemma drop_app_length (x y : string) : drop (String.length x) (x +:+ y) = y.
Proof. induction x as [|c x IH]; simpl; [now destruct y | exact IH]. Qed.

Lemma take_app_length (x y : string) : take (String.length x) (x +:+ y) = x.
Proof.
  induction x as [|c x IH]; simpl; [now destruct y | now rewrite IH].
Qed.

(** [s.substring(n)] drops the first [n] characters. *)
Lemma substring_from_drop (s : string) (n : nat) :
  substring_from s n = drop n s.
Proof.
  unfold substring_from, substring.
  rewrite Nat.min_id.
  assert (Hle : Nat.min n (String.length s) <= String.length s) by lia.
  rewrite (Nat.min_l _ _ Hle), (Nat.max_r _ _ Hle).
  rewrite <- (length_drop (Nat.min n (String.length s)) s).
  rewrite take_length. apply drop_beyond.
Qed.

(** [s.substring(0, n)] keeps the first [n] characters. *)
Lemma substring_0_take (s : string) (n : nat) :
  n <= String.length s -> substring s 0 n = take n s.
Proof.
  intros Hn. unfold substring. simpl Nat.min at 1.
  rewrite (Nat.min_l n _ Hn). simpl. now rewrite Nat.sub_0_r.
Qed.

Lemma endsWith_app (x p : string) : endsWith (x +:+ p) p = true.
Proof.
  unfold endsWith. rewrite length_app.
  replace (String.length p <=? String.length x + String.length p) with true
    by (symmetry; apply Nat.leb_le; lia).
  replace (String.length x + String.length p - String.length p)
    with (String.length x) by lia.
  rewrite drop_app_length. apply String.eqb_refl.
Qed.

Lemma trimEnd_app_ws (s : string) (c : ascii) :
  is_ws c = true -> trimEnd (s +:+ String c "") = trimEnd s.
Proof.
  intros Hc. induction s as [|d s IH]; simpl.
  - now rewrite Hc.
  - now rewrite IH.
Qed.

Lemma trimStart_trimEnd_ws (c : ascii) (s : string) :
  is_ws c = true -> trimStart (trimEnd (String c s)) = trimStart (trimEnd s).
Proof.
  intros Hc. simpl. destruct (trimEnd s) as [|d u].
  - now rewrite Hc.
  - simpl. now rewrite Hc.
Qed.

(** A line feed on either side does not survive [trim]. *)
Lemma trim_between_LF (t : string) : trim (LF +:+ t +:+ LF) = trim t.
Proof.
  unfold trim, LF.
  change (String "010" "" +:+ t +:+ String "010" "")
    with (String "010" (t +:+ String "010" "")).
  rewrite trimStart_trimEnd_ws by reflexivity.
  now rewrite trimEnd_app_ws by reflexivity.
Qed.

(** A text that begins with the tagged fence begins with the fence. *)
Lemma startsWith_json_fence (t : string) :
  startsWith t "```" = false -> startsWith t "```json" = false.
Proof.
  unfold startsWith.
  destruct t as [|c1 [|c2 [|c3 t]]]; cbn [String.prefix];
    repeat (destruct (ascii_dec _ _)); intros H;
    try reflexivity; try discriminate.
  destruct t; discriminate.
Qed.

(** [split] yields one piece more than there are separators. *)
Lemma length_split (sep : ascii) (s : string) :
  length (split sep s) = S (count_char sep s).
Proof.
  induction s as [|c s IH]; simpl; [reflexivity|].
  destruct (Ascii.eqb c sep); simpl.
  - now rewrite IH.
  - destruct (split sep s) as [|w ws]; simpl in *; [discriminate | exact IH].
Qed.

Lemma tokens_single_spaced (s : string) :
  (Spec.single_spaced_from true s = true ->
   Spec.tokens_from false s = S (count_char " " s)) /\
  (Spec.single_spaced_from false s = true ->
   Spec.tokens_from true s = count_char " " s).
Proof.
  induction s as [|c s [IHt IHf]]; simpl.
  - split; [discriminate | reflexivity].
  - destruct (is_ws c) eqn:Hws.
    + split; intros H.
      * rewrite andb_false_r in H. discriminate.
      * rewrite andb_true_r in H. apply andb_true_iff in H as [Hc Hs].
        rewrite Hc. simpl. now apply IHt.
    + assert (Hc : Ascii.eqb c " " = false).
      { destruct (Ascii.eqb_spec c " ") as [->|]; [discriminate | reflexivity]. }
      rewrite Hc. simpl. split; intros H.
      * now rewrite IHf.
      * now apply IHf.
Qed.

End StringFacts.

(* ===================================================================== *)
(** ** The fallback chain                                                 *)
(* ===================================================================== *)

Section ChainFacts.
Import OpenAIService.

Variable JSON_parse : string -> exn + GenerationResult.
Variable world : World.

Lemma generateWithOpenAI_run (sys usr : string) (h : list Event) :
  _generateWithOpenAI JSON_parse world sys usr h =
  (h ++ [Called (request_of OpenAI sys usr)],
   outcome JSON_parse world (Eff.calls h) (request_of OpenAI sys usr)).
Proof.
  unfold _generateWithOpenAI, Eff.bind, Eff.call, Eff.lift, outcome.
  now destruct (world _ _).
Qed.

Lemma generateWithGemini_run (sys usr : string) (h : list Event) :
  _generateWithGemini JSON_parse world sys usr h =
  (h ++ [Called (request_of Gemini sys usr)],
   outcome JSON_parse world (Eff.calls h) (request_of Gemini sys usr)).
Proof.
  unfold _generateWithGemini, Eff.bind, Eff.call, Eff.lift, outcome.
  now destruct (world _ _).
Qed.

Lemma generateWithGroq_run (sys usr : string) (h : list Event) :
  _generateWithGroq JSON_parse world sys usr h =
  (h ++ [Called (request_of Groq sys usr)],
   outcome JSON_parse world (Eff.calls h) (request_of Groq sys usr)).
Proof.
  unfold _generateWithGroq, Eff.bind, Eff.call, Eff.lift, outcome.
  now destruct (world _ _).
Qed.

Ltac run_adapters :=
  repeat first
    [ rewrite generateWithOpenAI_run
    | rewrite generateWithGemini_run
    | rewrite generateWithGroq_run ].

Ltac case_outcome :=
  match goal with
  | |- context [outcome JSON_parse world ?k ?c] =>
      let E := fresh "E" in
      destruct (outcome JSON_parse world k c) eqn:E
  end.

(** [_generateContent] follows its schedule. *)
Lemma generateContent_follow (this : t) (sys usr : string) :
  Eff.run (_generateContent JSON_parse world this sys usr) =
  Chain.follow JSON_parse world sys usr (Chain.schedule this) [].
Proof.
  unfold Eff.run, _generateContent, Chain.schedule.
  destruct this as [[] [] []];
    cbn [openaiClient geminiClient groqClient app Chain.follow Chain.rethrows
         Nat.ltb Nat.leb Nat.eqb];
    unfold Eff.bind, Eff.try_catch, Eff.for_range, Eff.ret, Eff.throw, Eff.wait;
    cbn [Nat.ltb Nat.leb Nat.eqb];
    unfold Eff.bind, Eff.try_catch, Eff.ret, Eff.throw, Eff.wait.
  all: run_adapters; cbn [app Eff.calls Eff.called length].
  all: try reflexivity.
  all: repeat (case_outcome; run_adapters;
               cbn [app Eff.calls Eff.called length]; try reflexivity).
Qed.



(** The case analysis over the clients and the outcomes of the attempts;
    the three requests are kept abstract, with their providers. *)
Ltac case_outcome_in H :=
  match type of H with
  | context [outcome JSON_parse world ?k ?c] =>
      let E := fresh "E" in
      destruct (outcome JSON_parse world k c) eqn:E
  end.

Ltac by_cases this sys usr :=
  let run := fresh "run" in
  let Hrun := fresh "Hrun" in
  remember (Eff.run (_generateContent JSON_parse world this sys usr))
    as run eqn:Hrun;
  rewrite generateContent_follow in Hrun;
  unfold Chain.schedule in Hrun;
  pose proof (eq_refl : provider (request_of OpenAI sys usr) = OpenAI);
  pose proof (eq_refl : provider (request_of Gemini sys usr) = Gemini);
  pose proof (eq_refl : provider (request_of Groq sys usr) = Groq);
  destruct this as [[] [] []];
  cbn [openaiClient geminiClient groqClient app Chain.follow Chain.rethrows
       Nat.ltb Nat.leb Nat.eqb Eff.calls Eff.called length] in Hrun;
  revert Hrun;
  generalize dependent (request_of OpenAI sys usr);
  generalize dependent (request_of Gemini sys usr);
  generalize dependent (request_of Groq sys usr);
  intros [p3 ? ? ?] P3 [p2 ? ? ?] P2 [p1 ? ? ?] P1 Hrun;
  cbn [provider] in P1, P2, P3; subst p1 p2 p3;
  repeat (case_outcome_in Hrun;
          cbn [app Chain.follow Chain.rethrows Nat.ltb Nat.leb Nat.eqb
               Eff.calls Eff.called length] in Hrun);
  subst run;
  cbn [fst snd Spec.attempts_on provider Spec.same_provider Nat.add
       Spec.attempts app].

(** C3: each adapter of the chain is attempted at most twice, the second
    attempt of an adapter comes after one delay of two seconds and no other
    delay occurs, only configured adapters are attempted, and an attempt
    that succeeds is the last event of the run and gives its result. *)
Theorem retry_discipline (this : t) (sys usr : string) :
  let run := Eff.run (_generateContent JSON_parse world this sys usr) in
  let trace := run.1 in
  trace =
    Spec.attempts (request_of OpenAI sys usr) (Spec.attempts_on OpenAI trace)
    ++ Spec.attempts (request_of Gemini sys usr)
         (Spec.attempts_on Gemini trace)
    ++ Spec.attempts (request_of Groq sys usr) (Spec.attempts_on Groq trace)
  /\ Spec.attempts_on Gemini trace <= 2
  /\ Spec.attempts_on Groq trace <= 2
  /\ (forall p, 0 < Spec.attempts_on p trace ->
                p ∈ Spec.configured_adapters this)
  /\ (forall k c r,
        Eff.called trace !! k = Some c ->
        outcome JSON_parse world k c = inr r ->
        run.2 = inr r /\ Eff.calls trace = S k /\
        last trace = Some (Called c)).
Proof.
  cbv zeta. by_cases this sys usr.
  all: split; [reflexivity|].
  all: split; [lia|].
  all: split; [lia|].
  all: split.
  all: try (intros [] Hp; cbn in Hp; try lia;
            unfold Spec.configured_adapters; cbn; set_solver).
  all: intros k c r Hc Ho.
  all: repeat (destruct k as [|k];
               [cbn in Hc; injection Hc as <-; try congruence;
                rewrite Ho in *;
                repeat match goal with E : inr _ = inr _ |- _ =>
                  injection E as -> end;
                repeat split; reflexivity|]).
  all: cbn in Hc; discriminate.
Qed.


(** C4, amended: the calls of a run follow the priority order OpenAI,
    Gemini, Groq; the OpenAI adapter is attempted exactly once when it has
    a client and never otherwise; its attempt opens the run, and when it
    succeeds the run consists of that one call and gives its result. *)
Theorem primary_single_attempt (this : t) (sys usr : string) :
  let run := Eff.run (_generateContent JSON_parse world this sys usr) in
  let trace := run.1 in
  StronglySorted (fun p q => Spec.rank p <= Spec.rank q)
    (provider <$> Eff.called trace)
  /\ Spec.attempts_on OpenAI trace = (if openaiClient this then 1 else 0)
  /\ (openaiClient this = true ->
      head trace = Some (Called (request_of OpenAI sys usr)) /\
      forall r,
        outcome JSON_parse world 0 (request_of OpenAI sys usr) = inr r ->
        trace = [Called (request_of OpenAI sys usr)] /\ run.2 = inr r).
Proof.
  cbv zeta. by_cases this sys usr.
  all: split; [cbn; repeat constructor; cbn; lia|].
  all: split; [reflexivity|].
  all: cbn [openaiClient]; intros Hconf; try discriminate Hconf.
  all: split; [reflexivity|].
  all: intros r Hr; try congruence.
  all: rewrite Hr in *;
       repeat match goal with E : inr _ = inr _ |- _ =>
         injection E as -> end; split; reflexivity.
Qed.

(** With no client at all the run fails at once, without a call, with the
    message that asks for a key. *)
Lemma nothing_configured (this : t) (sys usr : string) :
  Spec.configured_adapters this = [] ->
  Eff.run (_generateContent JSON_parse world this sys usr) =
  ([], inl no_provider_message).
Proof.
  intros Hnone. rewrite generateContent_follow. unfold Chain.schedule.
  destruct this as [[] [] []]; cbn in Hnone; try discriminate Hnone.
  reflexivity.
Qed.

(** With a Groq client, a run that fails reports the cause of its last
    attempt. *)
Lemma exhausted_names_cause (this : t) (sys usr : string) (e : exn) :
  groqClient this = true ->
  (Eff.run (_generateContent JSON_parse world this sys usr)).2 = inl e ->
  exists k cause,
    Eff.calls (Eff.run (_generateContent JSON_parse world this sys usr)).1
      = S k /\
    outcome JSON_parse world k (request_of Groq sys usr) = inl cause /\
    e = all_failed_message cause.
Proof.
  by_cases this sys usr.
  all: cbn [groqClient]; intros Hconf He;
       try discriminate Hconf; try discriminate He.
  all: injection He as <-.
  all: eexists _, _; split; [reflexivity|]; split; [eassumption|reflexivity].
Qed.




(** X1: no call is made exactly when no adapter has a client, and the run
    then fails with the message that asks for a key. *)
Theorem no_client_no_call (this : t) (sys usr : string) :
  let run := Eff.run (_generateContent JSON_parse world this sys usr) in
  (Spec.configured_adapters this = [] <-> run.1 = [])
  /\ (Spec.configured_adapters this = [] ->
      run.2 = inl no_provider_message).
Proof.
  cbv zeta. by_cases this sys usr.
  all: unfold Spec.configured_adapters;
       cbn [openaiClient geminiClient groqClient app].
  all: split; [split; intros H; first [discriminate H | reflexivity]|].
  all: intros H; first [discriminate H | reflexivity].
Qed.

(** X2: the message of a failed run depends on the Groq client alone: with
    it, the message names the cause of the last attempt, which was Groq's;
    without it, the message is the one that asks for a key, whatever was
    attempted. *)
Theorem failure_message (this : t) (sys usr : string) (e : exn) :
  let run := Eff.run (_generateContent JSON_parse world this sys usr) in
  run.2 = inl e ->
  if groqClient this
  then exists k cause,
         Eff.calls run.1 = S k /\
         outcome JSON_parse world k (request_of Groq sys usr) = inl cause /\
         e = all_failed_message cause
  else e = no_provider_message.
Proof.
  cbv zeta. by_cases this sys usr.
  all: cbn [groqClient]; intros He; try discriminate He; injection He as <-.
  all: try reflexivity.
  all: eexists _, _; split; [reflexivity|]; split; [eassumption|reflexivity].
Qed.

(** X3: a run fails only after every attempt of its schedule was made and
    failed: one for OpenAI, two each for Gemini and Groq, as far as they
    have clients. *)
Theorem failure_is_exhaustive (this : t) (sys usr : string) (e : exn) :
  let run := Eff.run (_generateContent JSON_parse world this sys usr) in
  run.2 = inl e ->
  Eff.calls run.1 =
    (if openaiClient this then 1 else 0) +
    (if geminiClient this then 2 else 0) +
    (if groqClient this then 2 else 0)
  /\ forall k c, Eff.called run.1 !! k = Some c ->
       exists cause, outcome JSON_parse world k c = inl cause.
Proof.
  cbv zeta. by_cases this sys usr.
  all: cbn [openaiClient geminiClient groqClient];
       intros He; try discriminate He.
  all: split; [reflexivity|].
  all: intros k c Hc.
  all: repeat (destruct k as [|k];
               [cbn in Hc; injection Hc as <-; eexists; eassumption|]).
  all: cbn in Hc; discriminate Hc.
Qed.

(** X4: a run makes at most five calls and sleeps at most four seconds:
    two seconds for each second attempt of Gemini and of Groq, and no
    other wait. *)
Theorem call_budget (this : t) (sys usr : string) :
  let run := Eff.run (_generateContent JSON_parse world this sys usr) in
  Eff.calls run.1 <= 5
  /\ Trace.total_wait run.1 <= 4000
  /\ Trace.total_wait run.1 =
       2000 * (Nat.pred (Spec.attempts_on Gemini run.1) +
               Nat.pred (Spec.attempts_on Groq run.1)).
Proof.
  cbv zeta. by_cases this sys usr.
  all: cbn [Eff.calls Eff.called length Trace.total_wait Nat.pred].
  all: split; [lia|]. all: split; lia.
Qed.

End ChainFacts.

(* ===================================================================== *)
(** ** Response cleaning                                                  *)
(* ===================================================================== *)

Section Cleaning.
Import JsString.

Lemma app_cons (c : ascii) (x y : string) :
  String c x +:+ y = String c (x +:+ y).
Proof. reflexivity. Qed.

Lemma app_assoc_string (x y z : string) : (x +:+ y) +:+ z = x +:+ y +:+ z.
Proof.
  induction x as [|c x IH]; [reflexivity|].
  rewrite !app_cons. now rewrite IH.
Qed.

Lemma startsWith_app (p x : string) : startsWith (p +:+ x) p = true.
Proof.
  unfold startsWith. induction p as [|c p IH].
  - now destruct x.
  - rewrite app_cons. cbn [String.prefix].
    destruct (ascii_dec c c); [exact IH | congruence].
Qed.

(** What the cleaning hands to the parser for a fenced text. *)
Lemma clean_fenced (JSON_parse : string -> exn + GenerationResult)
  (t : string) :
  OpenAIService._cleanJsonResponse JSON_parse (Spec.fenced t) =
  JSON_parse (trim t).
Proof.
  unfold OpenAIService._cleanJsonResponse, Spec.fenced.
  rewrite startsWith_app, substring_from_drop.
  change 7 with (String.length "```json").
  rewrite drop_app_length.
  replace (startsWith (LF +:+ t +:+ LF +:+ "```") "```") with false
    by reflexivity.
  replace (LF +:+ t +:+ LF +:+ "```") with ((LF +:+ t +:+ LF) +:+ "```")
    by now rewrite !app_assoc_string.
  rewrite endsWith_app, substring_0_take
    by (rewrite length_app; simpl; lia).
  replace (String.length ((LF +:+ t +:+ LF) +:+ "```") - 3)
    with (String.length (LF +:+ t +:+ LF))
    by (rewrite (length_app (LF +:+ t +:+ LF)); simpl; lia).
  now rewrite take_app_length, trim_between_LF.
Qed.

(** C8: the cleaning function gives the same parsed value for a JSON body
    wrapped in a tagged fence and for the bare body. A JSON body neither
    begins nor ends with a fence. *)
Theorem cleanJsonResponse_fence (JSON_parse : string -> exn + GenerationResult)
  (t : string) :
  Spec.fence_free t = true ->
  OpenAIService._cleanJsonResponse JSON_parse (Spec.fenced t) =
  OpenAIService._cleanJsonResponse JSON_parse t.
Proof.
  intros Hfree. rewrite clean_fenced.
  unfold Spec.fence_free in Hfree.
  apply andb_true_iff in Hfree as [Hs He].
  apply negb_true_iff in Hs, He.
  unfold OpenAIService._cleanJsonResponse.
  now rewrite (startsWith_json_fence t Hs), Hs, He.
Qed.

End Cleaning.

(** The example of the specification, fenced and bare. *)
Lemma cleanJsonResponse_fence_witness :
  Spec.fence_free Scenario.shoes_json = true /\
  OpenAIService._cleanJsonResponse Scenario.JSON_parse
    (Spec.fenced Scenario.shoes_json) = inr Scenario.shoes /\
  OpenAIService._cleanJsonResponse Scenario.JSON_parse
    (Spec.fenced Scenario.shoes_json) =
  OpenAIService._cleanJsonResponse Scenario.JSON_parse Scenario.shoes_json.
Proof.
  split; [reflexivity|]. split; [reflexivity|].
  apply (cleanJsonResponse_fence Scenario.JSON_parse Scenario.shoes_json).
  reflexivity.
Defined.

(* ===================================================================== *)
(** ** The post-processors                                                *)
(* ===================================================================== *)

Section PostProcessing.
Import JsString OpenAIService.

(** C7, amended: the character count is the length of the primary text, the
    word count is the number of pieces between its space characters, and
    the read time renders max(1, floor(words / 3)) followed by " sec"; the
    three are functions of the text alone, for captions and scripts alike.
    On a text whose tokens are separated by single spaces the word count is
    the number of whitespace-delimited tokens. *)
Theorem stats_of_primary_text (request : PostRequest)
  (video : Video.Request) (result : GenerationResult) :
  let caption := or_else (Result.caption result) "" in
  let script := or_else (Result.script result) "" in
  Spec.counts (Text.stats (text_response request result))
    = Spec.stats_of caption
  /\ Spec.counts (Image.stats (image_response request result))
    = Spec.stats_of caption
  /\ Spec.counts (Video.stats (video_response video result))
    = Spec.stats_of script
  /\ (forall text,
        Spec.single_spaced text = true ->
        (Spec.stats_of text).1.2 = Spec.whitespace_tokens text).
Proof.
  cbv zeta.
  unfold Spec.counts, Spec.stats_of, text_response, image_response,
    video_response, readTime_of; cbn [Text.stats Image.stats Video.stats
    characters words readTime].
  rewrite !length_split.
  repeat split.
  intros text Hs. cbn [fst snd].
  symmetry. now apply tokens_single_spaced.
Qed.

End PostProcessing.

(** The example of the specification: 25 characters, 4 words, "1 sec". *)
Lemma stats_of_primary_text_witness :
  Spec.single_spaced "Run faster, feel lighter." = true /\
  Spec.counts
    (Text.stats
       (OpenAIService.text_response (Scenario.post true true) Scenario.shoes))
    = (25, 4, "1 sec") /\
  (Spec.stats_of "Run faster, feel lighter.").1.2 =
    Spec.whitespace_tokens "Run faster, feel lighter.".
Proof.
  split; [reflexivity|]. split; [reflexivity|].
  apply (stats_of_primary_text (Scenario.post true true) Scenario.video
           Scenario.shoes).
  reflexivity.
Defined.

(** C7 as stated fails: on a caption with a doubled space the word count
    is 3, and the caption has 2 whitespace-delimited tokens. *)
Lemma word_count_counterexample :
  let response :=
    OpenAIService.text_response (Scenario.post true true) Scenario.doubled in
  Text.caption response = "Big  sale" /\
  words (Text.stats response) = 3 /\
  Spec.whitespace_tokens (Text.caption response) = 2 /\
  words (Text.stats response) <> Spec.whitespace_tokens (Text.caption response).
Proof. repeat split; try reflexivity. vm_compute. discriminate. Qed.

Section Toggles.
Import JsString OpenAIService.

(** X12: the text post applies both toggles, and with [includeHashtags]
    the hashtags are the ones the adapter returned. *)
Lemma text_post_toggles (request : PostRequest) (result : GenerationResult) :
  (includeHashtags request = false ->
   Text.hashtags (text_response request result) = [])
  /\ (includeCTA request = false ->
      Text.cta (text_response request result) = "")
  /\ (forall raw, includeHashtags request = true ->
        Result.hashtags result = Some raw ->
        Text.hashtags (text_response request result) = raw).
Proof.
  unfold text_response; cbn [Text.hashtags Text.cta].
  repeat split.
  - now intros ->.
  - now intros ->.
  - now intros raw -> ->.
Qed.

(** C6, amended: the engagement score of a text post is "High" exactly when
    the adapter returned at least 5 hashtags and "Medium" otherwise,
    whatever the toggles; the image post and the video script always
    report "High". *)
Theorem engagement_score (request : PostRequest) (video : Video.Request)
  (result : GenerationResult) :
  engagementScore (Text.stats (text_response request result)) =
    Spec.engagement_of (default [] (Result.hashtags result))
  /\ engagementScore (Image.stats (image_response request result)) = "High"
  /\ engagementScore (Video.stats (video_response video result)) = "High".
Proof.
  repeat split.
  unfold text_response, Spec.engagement_of, at_least_5;
    cbn [Text.stats engagementScore].
  now destruct (Result.hashtags result).
Qed.

End Toggles.

(** C5 fails on the image post: a request that switches both toggles off
    gets the adapter's hashtags and call to action all the same. *)
Theorem image_post_ignores_toggles :
  let request := Scenario.post false false in
  let run :=
    Eff.run
      (OpenAIService.generateImagePost Scenario.JSON_parse
         (Scenario.replies [Replied Scenario.sale_json])
         (Scenario.clients true false false) request) in
  includeHashtags request = false /\ includeCTA request = false /\
  exists response,
    run.2 = inr response /\
    Image.hashtags response = ["#sale"] /\ Image.cta response = "Buy".
Proof.
  cbv zeta. split; [reflexivity|]. split; [reflexivity|].
  eexists. split; [vm_compute; reflexivity|]. split; reflexivity.
Qed.

(** C6 as stated fails: an image post whose adapter returned one hashtag
    is scored "High". *)
Lemma engagement_score_counterexample :
  let response :=
    OpenAIService.image_response (Scenario.post true true) Scenario.sale in
  Result.hashtags Scenario.sale = Some ["#sale"] /\
  engagementScore (Image.stats response) = "High" /\
  engagementScore (Image.stats response) <>
    Spec.engagement_of (default [] (Result.hashtags Scenario.sale)).
Proof. repeat split. vm_compute. discriminate. Qed.

(* ===================================================================== *)
(** ** The platform lookup                                                *)
(* ===================================================================== *)

(** X13: away from the names [Object.prototype] defines, the lookup
    answers with a profile: the platform's own, or Instagram's for a key
    the table does not have. *)
Lemma getPlatformContext_own (platform : string) :
  platform ∉ JsObject.prototype_keys ->
  exists profile,
    OpenAIService._getPlatformContext platform = JsObject.Own profile /\
    (OpenAIService.platforms !! platform = None ->
     profile = OpenAIService.instagram).
Proof.
  intros Hkey. unfold OpenAIService._getPlatformContext, JsObject.get.
  destruct (OpenAIService.platforms !! platform) as [profile|] eqn:Hp.
  - exists profile. split; [reflexivity | discriminate].
  - rewrite bool_decide_eq_false_2 by exact Hkey.
    exists OpenAIService.instagram. split; reflexivity.
Qed.


(* ===================================================================== *)
(** ** Whole generation calls                                             *)
(* ===================================================================== *)

Section Generation.
Import JsString OpenAIService.

Variable JSON_parse : string -> exn + GenerationResult.
Variable world : World.

Lemma run_then_ret {A B : Type} (m : Eff.t A) (f : A -> B) :
  Eff.run (x <- m ;; Eff.ret (f x)) =
  ((Eff.run m).1,
   match (Eff.run m).2 with
   | inr a => inr (f a)
   | inl e => inl e
   end).
Proof.
  unfold Eff.run, Eff.bind, Eff.ret.
  now destruct (m []) as [h [e|a]].
Qed.



(** C9: a generation that succeeds reports a fixed number of credits: 1
    for a text post, 2 for an image post, 3 for a video script, and 2 in
    the body the UGC ad handler sends. *)
Theorem credits_used (this : t) (gemini : GeminiService.t)
  (request : PostRequest) (video : Video.Request) (ad : UGC.Request)
  (image_reply : GeminiService.ImageReply) (supabase_configured : bool)
  (upload : exn + string) :
  (forall response,
     (Eff.run (generateTextPost JSON_parse world this request)).2
       = inr response ->
     Text.creditsUsed response = 1)
  /\ (forall response,
        (Eff.run (generateImagePost JSON_parse world this request)).2
          = inr response ->
        Image.creditsUsed response = 2)
  /\ (forall response,
        (Eff.run (generateVideoScript JSON_parse world this video)).2
          = inr response ->
        Video.creditsUsed response = 3)
  /\ (forall body,
        (Eff.run
           (ContentRoutes.generate_ugc_ad JSON_parse world gemini
              image_reply supabase_configured upload ad)).2
          = inr (ContentRoutes.Json body) ->
        ContentRoutes.creditsUsed body = 2).
Proof.
  repeat split; intros response.
  1-3: unfold generateTextPost, generateImagePost, generateVideoScript;
       rewrite run_then_ret; cbn [snd];
       destruct (Eff.run (_generateContent _ _ _ _ _)).2;
       [discriminate | now intros [= <-]].
  unfold ContentRoutes.generate_ugc_ad, Eff.run, Eff.try_catch, Eff.bind,
    Eff.ret, Eff.throw, Eff.lift.
  destruct (GeminiService.generateUGCAdContent _ _ _ _ _) as [h [e|content]];
    [discriminate|].
  destruct (UGC.imagePrompt content); [|discriminate].
  destruct (GeminiService.generateImage _ _ _); [discriminate|].
  now intros [= <-].
Qed.

End Generation.

(* ===================================================================== *)
(** ** Runs in concrete worlds                                            *)
(* ===================================================================== *)

(** C1 fails when the last adapter of the chain is not Groq: with a client
    for OpenAI only, whose one call is rejected, the run makes that call
    and then fails with the message of the unconfigured service, the same
    as with no client at all; the cause is not named. *)
Theorem exhaustion_reported_as_unconfigured :
  let world := Scenario.replies [Threw "429 Too Many Requests"] in
  let failed :=
    Eff.run
      (OpenAIService._generateContent Scenario.JSON_parse world
         (Scenario.clients true false false) "s" "u") in
  let unconfigured :=
    Eff.run
      (OpenAIService._generateContent Scenario.JSON_parse world
         (Scenario.clients false false false) "s" "u") in
  failed.1 = [Called (OpenAIService.request_of OpenAI "s" "u")]
  /\ failed.2 = inl OpenAIService.no_provider_message
  /\ unconfigured = ([], inl OpenAIService.no_provider_message)
  /\ failed.2 <>
       inl (OpenAIService.all_failed_message "429 Too Many Requests").
Proof. repeat split. vm_compute. discriminate. Qed.



(** The fallback scenario of the specification: the primary adapter fails,
    the first attempt of the secondary fails, and its second attempt, made
    after one delay of two seconds, gives the result. *)
Lemma retry_discipline_witness :
  let world :=
    Scenario.replies
      [Threw "401 Unauthorized"; Threw "503 Service Unavailable";
       Replied (Spec.fenced Scenario.shoes_json)] in
  let run :=
    Eff.run
      (OpenAIService._generateContent Scenario.JSON_parse world
         (Scenario.clients true true true) "s" "u") in
  run.1 =
    [Called (OpenAIService.request_of OpenAI "s" "u");
     Called (OpenAIService.request_of Gemini "s" "u");
     Waited 2000;
     Called (OpenAIService.request_of Gemini "s" "u")]
  /\ run.2 = inr Scenario.shoes
  /\ Eff.calls run.1 = 3.
Proof.
  cbv zeta.
  destruct
    (retry_discipline Scenario.JSON_parse
       (Scenario.replies
          [Threw "401 Unauthorized"; Threw "503 Service Unavailable";
           Replied (Spec.fenced Scenario.shoes_json)])
       (Scenario.clients true true true) "s" "u")
    as (Hshape & _ & _ & _ & Hlast).
  destruct (Hlast 2 (OpenAIService.request_of Gemini "s" "u") Scenario.shoes
              eq_refl eq_refl) as (Hres & Hcalls & _).
  split; [|split; [exact Hres | exact Hcalls]].
  rewrite Hshape. reflexivity.
Defined.

(** C4 as stated fails: with no client for OpenAI the first configured
    adapter is Gemini, and it is attempted twice. *)
Lemma first_adapter_retried :
  let this := Scenario.clients false true false in
  let run :=
    Eff.run
      (OpenAIService._generateContent Scenario.JSON_parse
         (Scenario.replies
            [Threw "503 Service Unavailable"; Replied Scenario.shoes_json])
         this "s" "u") in
  head (Spec.configured_adapters this) = Some Gemini
  /\ Spec.attempts_on Gemini run.1 = 2
  /\ run.2 = inr Scenario.shoes
  /\ ~ Spec.first_adapter_tried_once this run.1.
Proof.
  cbv zeta. repeat split.
  intros Honce. specialize (Honce Gemini eq_refl).
  vm_compute in Honce. discriminate Honce.
Qed.

(** The primary adapter succeeds: one call, its result. *)
Lemma primary_single_attempt_witness :
  let world := Scenario.replies [Replied Scenario.shoes_json] in
  let run :=
    Eff.run
      (OpenAIService._generateContent Scenario.JSON_parse world
         (Scenario.clients true true true) "s" "u") in
  OpenAIService.openaiClient (Scenario.clients true true true) = true
  /\ run.1 = [Called (OpenAIService.request_of OpenAI "s" "u")]
  /\ run.2 = inr Scenario.shoes.
Proof.
  cbv zeta. split; [reflexivity|].
  destruct
    (primary_single_attempt Scenario.JSON_parse
       (Scenario.replies [Replied Scenario.shoes_json])
       (Scenario.clients true true true) "s" "u")
    as (_ & _ & Hprimary).
  destruct (Hprimary eq_refl) as (_ & Hsuccess).
  exact (Hsuccess Scenario.shoes eq_refl).
Defined.

(** A text post and a UGC ad that succeed. *)
Lemma credits_used_witness :
  let this := Scenario.clients true false false in
  let text_world := Scenario.replies [Replied Scenario.shoes_json] in
  let ad_world := Scenario.replies [Replied Scenario.sale_json] in
  Text.creditsUsed
    (OpenAIService.text_response (Scenario.post true true) Scenario.shoes) = 1
  /\ exists body,
       (Eff.run
          (ContentRoutes.generate_ugc_ad Scenario.JSON_parse ad_world
             Scenario.gemini Scenario.picture false (inl "") Scenario.ad)).2
         = inr (ContentRoutes.Json body)
       /\ ContentRoutes.generatedImageUrl body
          = Some "data:image/png;base64,iVBORw0KGgo="
       /\ ContentRoutes.creditsUsed body = 2.
Proof.
  cbv zeta.
  pose proof
    (credits_used Scenario.JSON_parse
       (Scenario.replies [Replied Scenario.shoes_json])
       (Scenario.clients true false false) Scenario.gemini
       (Scenario.post true true) Scenario.video Scenario.ad
       Scenario.picture false (inl "")) as (Htext & _).
  split; [exact (Htext _ eq_refl)|].
  pose proof
    (credits_used Scenario.JSON_parse
       (Scenario.replies [Replied Scenario.sale_json])
       (Scenario.clients true false false) Scenario.gemini
       (Scenario.post true true) Scenario.video Scenario.ad
       Scenario.picture false (inl "")) as (_ & _ & _ & Had).
  eexists. split; [vm_compute; reflexivity|].
  split; [reflexivity|].
  apply Had. vm_compute. reflexivity.
Defined.

(* ===================================================================== *)
(** ** Further properties: configuration                                  *)
(* ===================================================================== *)

(** X5: the adapters the constructor leaves configured are exactly the
    providers whose key is set and whose SDK client could be built. *)
Theorem constructor_adapters (settings : Config.Settings)
  (sdk_ok : Provider -> bool) (p : Provider) :
  p ∈ Spec.configured_adapters (OpenAIService.constructor settings sdk_ok)
  <-> Config.truthy (Keys.key_of settings p) = true /\ sdk_ok p = true.
Proof.
  unfold Spec.configured_adapters, OpenAIService.constructor, Keys.key_of.
  cbn [OpenAIService.openaiClient OpenAIService.geminiClient
       OpenAIService.groqClient].
  destruct p;
    destruct (Config.truthy (Config.openaiApiKey settings)),
      (Config.truthy (Config.googleApiKey settings)),
      (Config.truthy (Config.groqApiKey settings)),
      (sdk_ok OpenAI), (sdk_ok Gemini), (sdk_ok Groq);
    cbn [app]; rewrite ?elem_of_cons, ?elem_of_nil;
    split; intros H;
    first [ split; reflexivity
          | right; left; reflexivity
          | right; right; left; reflexivity
          | left; reflexivity
          | exfalso; intuition discriminate ].
Qed.

(** X6: with no API key in the settings, a text post fails at once with
    the message that asks for a key, and no provider is called. *)
Theorem no_keys_fails_fast (JSON_parse : string -> exn + GenerationResult)
  (world : World) (settings : Config.Settings) (sdk_ok : Provider -> bool)
  (request : PostRequest) :
  (forall p, Keys.key_of settings p = "") ->
  Eff.run
    (OpenAIService.generateTextPost JSON_parse world
       (OpenAIService.constructor settings sdk_ok) request)
  = ([], inl OpenAIService.no_provider_message).
Proof.
  intros Hkeys.
  unfold OpenAIService.generateTextPost. rewrite run_then_ret.
  rewrite nothing_configured; [reflexivity|].
  unfold Spec.configured_adapters, OpenAIService.constructor.
  cbn [OpenAIService.openaiClient OpenAIService.geminiClient
       OpenAIService.groqClient].
  pose proof (Hkeys OpenAI) as H1. pose proof (Hkeys Gemini) as H2.
  pose proof (Hkeys Groq) as H3. cbn [Keys.key_of] in H1, H2, H3.
  now rewrite H1, H2, H3.
Qed.

Lemma no_keys_fails_fast_witness :
  Eff.run
    (OpenAIService.generateTextPost Scenario.JSON_parse
       (Scenario.replies [Replied Scenario.shoes_json])
       (OpenAIService.constructor
          {| Config.openaiApiKey := ""; Config.googleApiKey := "";
             Config.groqApiKey := "" |} (fun _ => true))
       (Scenario.post true true))
  = ([], inl OpenAIService.no_provider_message).
Proof.
  apply (no_keys_fails_fast Scenario.JSON_parse
           (Scenario.replies [Replied Scenario.shoes_json])
           {| Config.openaiApiKey := ""; Config.googleApiKey := "";
              Config.groqApiKey := "" |} (fun _ => true)
           (Scenario.post true true)).
  now intros [].
Defined.

(* ===================================================================== *)
(** ** Further properties: fences and white space                         *)
(* ===================================================================== *)

Section Fences.
Import JsString.

Variable JSON_parse : string -> exn + GenerationResult.

Lemma trimEnd_blank (pad : string) : Fence.blank pad = true -> trimEnd pad = "".
Proof.
  induction pad as [|c pad IH]; [reflexivity|].
  cbn [Fence.blank trimEnd]. intros [Hc Hpad]%andb_true_iff.
  now rewrite (IH Hpad), Hc.
Qed.

Lemma trimEnd_app_blank (s pad : string) :
  Fence.blank pad = true -> trimEnd (s +:+ pad) = trimEnd s.
Proof.
  intros Hpad. induction s as [|c s IH].
  - now apply trimEnd_blank.
  - rewrite app_cons. cbn [trimEnd]. now rewrite IH.
Qed.

Lemma trim_app_blank_l (pad s : string) :
  Fence.blank pad = true -> trim (pad +:+ s) = trim s.
Proof.
  unfold trim. induction pad as [|c pad IH]; [reflexivity|].
  cbn [Fence.blank]. intros [Hc Hpad]%andb_true_iff.
  rewrite app_cons, trimStart_trimEnd_ws by exact Hc. now apply IH.
Qed.

(** White space around a text does not survive [trim]. *)
Lemma trim_padded (pad1 pad2 s : string) :
  Fence.blank pad1 = true -> Fence.blank pad2 = true ->
  trim (pad1 +:+ s +:+ pad2) = trim s.
Proof.
  intros H1 H2. rewrite trim_app_blank_l by exact H1.
  unfold trim. now rewrite trimEnd_app_blank.
Qed.

Lemma trimEnd_app_char (s : string) (c : ascii) :
  is_ws c = false -> trimEnd (s +:+ String c "") = s +:+ String c "".
Proof.
  intros Hc. induction s as [|d s IH].
  - change ("" +:+ String c "") with (String c "").
    cbn [trimEnd]. now rewrite Hc.
  - rewrite app_cons. cbn [trimEnd]. rewrite IH.
    now destruct s.
Qed.

(** A fenced text is its own [trim]. *)
Lemma trim_fenced (t : string) : trim (Spec.fenced t) = Spec.fenced t.
Proof.
  unfold trim, Spec.fenced.
  replace ("```json" +:+ LF +:+ t +:+ LF +:+ "```")
    with (("```json" +:+ LF +:+ t +:+ LF +:+ "``") +:+ "`")
    by now rewrite !app_assoc_string.
  rewrite trimEnd_app_char by reflexivity.
  reflexivity.
Qed.

(** X7: a fence without the [json] tag is stripped like a tagged one: for
    every text, both forms hand the same trimmed body to the parser. *)
Theorem plain_fence (t : string) :
  OpenAIService._cleanJsonResponse JSON_parse (Fence.plain t)
  = OpenAIService._cleanJsonResponse JSON_parse (Spec.fenced t).
Proof.
  rewrite clean_fenced.
  unfold OpenAIService._cleanJsonResponse, Fence.plain. cbv zeta.
  replace (startsWith ("```" +:+ LF +:+ t +:+ LF +:+ "```") "```json")
    with false by reflexivity.
  rewrite startsWith_app, substring_from_drop.
  change (drop 3 ("```" +:+ LF +:+ t +:+ LF +:+ "```"))
    with (LF +:+ t +:+ LF +:+ "```").
  replace (LF +:+ t +:+ LF +:+ "```") with ((LF +:+ t +:+ LF) +:+ "```")
    by now rewrite !app_assoc_string.
  rewrite endsWith_app, substring_0_take
    by (rewrite length_app; simpl; lia).
  replace (String.length ((LF +:+ t +:+ LF) +:+ "```") - 3)
    with (String.length (LF +:+ t +:+ LF))
    by (rewrite (length_app (LF +:+ t +:+ LF)); simpl; lia).
  now rewrite take_app_length, trim_between_LF.
Qed.

(** X8: the Gemini and Groq adapters trim before they clean, so white
    space around a fenced response changes nothing: the parser is handed
    the trimmed body. *)
Theorem padded_fence (pad1 pad2 t : string) :
  Fence.blank pad1 = true -> Fence.blank pad2 = true ->
  OpenAIService.parse_of JSON_parse Gemini (pad1 +:+ Spec.fenced t +:+ pad2)
    = JSON_parse (trim t)
  /\ OpenAIService.parse_of JSON_parse Groq
       (pad1 +:+ Spec.fenced t +:+ pad2)
     = JSON_parse (trim t).
Proof.
  intros H1 H2. unfold OpenAIService.parse_of.
  rewrite trim_padded, trim_fenced by assumption.
  split; apply clean_fenced.
Qed.

Lemma endsWith_after_LF (t : string) :
  endsWith (LF +:+ t) "```" = endsWith t "```".
Proof.
  unfold endsWith, LF. rewrite app_cons.
  change ("" +:+ t) with t. change (String.length "```") with 3.
  cbn [String.length].
  destruct (le_lt_dec 3 (String.length t)) as [Hlong|Hshort].
  - replace (3 <=? S (String.length t)) with true
      by (symmetry; apply Nat.leb_le; lia).
    replace (3 <=? String.length t) with true
      by (symmetry; apply Nat.leb_le; lia).
    replace (S (String.length t) - 3) with (S (String.length t - 3)) by lia.
    reflexivity.
  - replace (3 <=? String.length t) with false
      by (symmetry; apply Nat.leb_gt; lia).
    destruct (3 <=? S (String.length t)); [|reflexivity].
    replace (S (String.length t) - 3) with 0 by lia.
    reflexivity.
Qed.

(** X9: a response cut off before its closing fence, as the token ceiling
    can leave it, still loses its opening fence: the parser is handed the
    trimmed rest. *)
Theorem unclosed_fence (t : string) :
  endsWith t "```" = false ->
  OpenAIService._cleanJsonResponse JSON_parse (Fence.unclosed t)
  = JSON_parse (trim t).
Proof.
  intros Hend.
  unfold OpenAIService._cleanJsonResponse, Fence.unclosed. cbv zeta.
  rewrite startsWith_app, substring_from_drop.
  change (drop 7 ("```json" +:+ LF +:+ t)) with (LF +:+ t).
  replace (startsWith (LF +:+ t) "```") with false by reflexivity.
  rewrite endsWith_after_LF, Hend.
  now rewrite trim_app_blank_l.
Qed.

End Fences.

Lemma unclosed_fence_witness :
  OpenAIService._cleanJsonResponse Scenario.JSON_parse
    (Fence.unclosed Scenario.shoes_json)
  = inr Scenario.shoes.
Proof.
  rewrite (unclosed_fence Scenario.JSON_parse Scenario.shoes_json eq_refl).
  reflexivity.
Defined.

Lemma padded_fence_witness :
  OpenAIService.parse_of Scenario.JSON_parse Gemini
    ("  " +:+ Spec.fenced Scenario.shoes_json +:+ JsString.LF)
  = inr Scenario.shoes.
Proof.
  destruct (padded_fence Scenario.JSON_parse "  " JsString.LF
              Scenario.shoes_json eq_refl eq_refl) as [Hgemini _].
  rewrite Hgemini. reflexivity.
Defined.

(* ===================================================================== *)
(** ** Further properties: the responses                                  *)
(* ===================================================================== *)

Section Responses.
Import JsString OpenAIService.

Lemma count_char_le (sep : ascii) (s : string) :
  count_char sep s <= String.length s.
Proof.
  induction s as [|c s IH]; cbn [count_char String.length]; [lia|].
  destruct (Ascii.eqb c sep); lia.
Qed.

(** X10: a result without a caption (or a video result without a script)
    does not fail the request: the text is empty, and the statistics read
    0 characters, 1 word and "1 sec". *)
Theorem empty_text_stats (request : PostRequest) (video : Video.Request)
  (result : GenerationResult) :
  (or_else (Result.caption result) "" = "" ->
   Text.caption (text_response request result) = "" /\
   Spec.counts (Text.stats (text_response request result)) = (0, 1, "1 sec")
   /\ Spec.counts (Image.stats (image_response request result))
      = (0, 1, "1 sec"))
  /\ (or_else (Result.script result) "" = "" ->
      Video.script (video_response video result) = "" /\
      Spec.counts (Video.stats (video_response video result))
      = (0, 1, "1 sec")).
Proof.
  unfold text_response, image_response, video_response, Spec.counts.
  cbn [Text.caption Text.stats Image.stats Video.script Video.stats
       characters words readTime].
  split; intros ->; repeat split.
Qed.

(** X11: every response counts at least one word and at most one more than
    it has characters, and its read time is a positive number of seconds
    that does not exceed the word count. *)
Theorem stats_bounds (request : PostRequest) (video : Video.Request)
  (result : GenerationResult) (st : ContentStats) :
  st = Text.stats (text_response request result)
  \/ st = Image.stats (image_response request result)
  \/ st = Video.stats (video_response video result) ->
  1 <= words st <= S (characters st)
  /\ exists seconds,
       readTime st = pretty seconds +:+ " sec" /\
       1 <= seconds <= words st.
Proof.
  intros Hst.
  assert (Hshape : exists text,
    characters st = String.length text /\
    words st = S (count_char " " text) /\
    readTime st = readTime_of (words st)).
  { destruct Hst as [-> | [-> | ->]];
      unfold text_response, image_response, video_response;
      cbn [Text.stats Image.stats Video.stats characters words readTime];
      eexists; rewrite length_split; repeat split. }
  destruct Hshape as (text & Hc & Hw & Hr).
  pose proof (count_char_le " " text) as Hle.
  split; [lia|].
  exists (Nat.max 1 (words st / 3)). split; [exact Hr|].
  pose proof (Nat.Div0.div_le_upper_bound (words st) 3 (words st)) as Hdiv.
  assert (words st / 3 <= words st) by (apply Hdiv; lia).
  lia.
Qed.

End Responses.

Lemma empty_text_stats_witness :
  Spec.counts
    (Text.stats
       (OpenAIService.text_response (Scenario.post true true) Result.empty))
  = (0, 1, "1 sec").
Proof.
  destruct (empty_text_stats (Scenario.post true true) Scenario.video
              Result.empty) as [Htext _].
  destruct (Htext eq_refl) as (_ & Hstats & _). exact Hstats.
Defined.

Lemma stats_bounds_witness :
  1 <= words
         (Text.stats
            (OpenAIService.text_response (Scenario.post true true)
               Scenario.shoes)) <= 26.
Proof.
  destruct (stats_bounds (Scenario.post true true) Scenario.video
              Scenario.shoes _ (or_introl eq_refl)) as [Hwords _].
  exact Hwords.
Defined.

(** The text post with its toggles switched off and on. *)
Lemma text_post_toggles_witness :
  Text.hashtags
    (OpenAIService.text_response (Scenario.post false false) Scenario.shoes)
  = []
  /\ Text.cta
       (OpenAIService.text_response (Scenario.post false false)
          Scenario.shoes) = ""
  /\ Text.hashtags
       (OpenAIService.text_response (Scenario.post true true) Scenario.shoes)
     = ["#run"; "#shoes"; "#fitness"; "#gear"; "#new"].
Proof.
  destruct (text_post_toggles (Scenario.post false false) Scenario.shoes)
    as (Hoff & Hcta & _).
  destruct (text_post_toggles (Scenario.post true true) Scenario.shoes)
    as (_ & _ & Hon).
  split; [exact (Hoff eq_refl)|]. split; [exact (Hcta eq_refl)|].
  exact (Hon _ eq_refl eq_refl).
Defined.

(* ===================================================================== *)
(** ** Further properties: the platform table                             *)
(* ===================================================================== *)

(** A platform no table and no prototype knows. *)
Lemma getPlatformContext_own_witness :
  OpenAIService._getPlatformContext "mastodon"
  = JsObject.Own OpenAIService.instagram.
Proof.
  destruct (getPlatformContext_own "mastodon") as (profile & Hown & Hdefault).
  - vm_compute. intros Hin.
    repeat (apply elem_of_cons in Hin as [Hin|Hin]; [discriminate Hin|]).
    now apply elem_of_nil in Hin.
  - rewrite Hown. f_equal. apply Hdefault. reflexivity.
Defined.

(** X14: the table has a profile for each platform of the request schema
    and for nothing else, so a validated request never reaches the
    fallback: the lookup answers with the platform's own profile. *)
Theorem enum_platforms_have_profiles (platform : string) :
  (platform ∈ Schemas.Platform <->
   is_Some (OpenAIService.platforms !! platform))
  /\ (platform ∈ Schemas.Platform ->
      exists profile,
        OpenAIService.platforms !! platform = Some profile /\
        OpenAIService._getPlatformContext platform = JsObject.Own profile).
Proof.
  assert (Hdom : platform ∈ Schemas.Platform <->
                 is_Some (OpenAIService.platforms !! platform)).
  { unfold OpenAIService.platforms, Schemas.Platform.
    rewrite <- elem_of_dom. rewrite dom_list_to_map_L. cbn [fmap list_fmap fst].
    rewrite elem_of_list_to_set. reflexivity. }
  split; [exact Hdom|].
  intros [profile Hp]%Hdom. exists profile. split; [exact Hp|].
  unfold OpenAIService._getPlatformContext, JsObject.get. now rewrite Hp.
Qed.

Lemma enum_platforms_have_profiles_witness :
  exists profile,
    OpenAIService._getPlatformContext "twitter" = JsObject.Own profile /\
    OpenAIService.charLimit profile = 280%N.
Proof.
  destruct (enum_platforms_have_profiles "twitter") as [_ Hown].
  destruct Hown as (profile & Hp & Hctx).
  - unfold Schemas.Platform. rewrite !elem_of_cons. auto.
  - exists profile. split; [exact Hctx|].
    vm_compute in Hp. now injection Hp as <-.
Defined.

(* ===================================================================== *)
(** ** Further properties: the UGC ad content                             *)
(* ===================================================================== *)

Section UgcContent.
Import JsString GeminiService.

Variable JSON_parse : string -> exn + GenerationResult.
Variable world : World.

(** X15: without a key, or when the text SDK could not be built, the
    service is not configured: the content request fails with the message
    that names the missing key, and no call is made. *)
Theorem ugc_needs_key (key : string) (text_sdk_ok image_sdk_ok : bool)
  (request : UGC.Request) :
  Config.truthy key = false \/ text_sdk_ok = false ->
  Eff.run
    (generateUGCAdContent JSON_parse world
       (constructor key text_sdk_ok image_sdk_ok) request)
  = ([], inl not_configured_message).
Proof.
  intros Hmissing.
  unfold generateUGCAdContent, isConfigured, constructor, Eff.run.
  destruct Hmissing as [-> | ->]; cbn [client apiKey];
    [reflexivity|].
  destruct (Config.truthy key); reflexivity.
Qed.

Lemma adTypeName_own (adType : string) :
  adType ∉ JsObject.prototype_keys ->
  exists name, adTypeName_of adType = JsObject.Own name.
Proof.
  intros Hkey. unfold adTypeName_of, JsObject.get.
  destruct (adTypeMap !! adType) as [name|]; [now exists name|].
  rewrite bool_decide_eq_false_2 by exact Hkey. now exists adType.
Qed.

Lemma adTypeName_inherited (adType : string) :
  adType ∈ JsObject.prototype_keys ->
  adTypeName_of adType = JsObject.Inherited adType.
Proof.
  intros Hkey. unfold JsObject.prototype_keys in Hkey.
  repeat (apply elem_of_cons in Hkey as [-> | Hkey]; [reflexivity|]).
  now apply elem_of_nil in Hkey.
Qed.

(** X16: once configured, and for an ad type that is not the name of an
    inherited member, the content request never fails: it makes exactly one
    call and resolves, with the fixed statistics, whatever the call was
    answered with. *)
Theorem ugc_content_never_fails (this : t) (request : UGC.Request) :
  isConfigured this = true ->
  UGC.adType request ∉ JsObject.prototype_keys ->
  let run := Eff.run (generateUGCAdContent JSON_parse world this request) in
  run.1 = [Called (request_of (ugc_prompt request))]
  /\ exists content,
       run.2 = inr content /\ UGC.stats content = fixed_stats.
Proof.
  intros Hconf Hkey. cbv zeta.
  destruct (adTypeName_own _ Hkey) as (name & Hname).
  unfold generateUGCAdContent, Eff.run. rewrite Hconf. cbn [negb].
  unfold Eff.try_catch, request_content, Eff.bind, Eff.call, Eff.lift,
    Eff.ret, fallback.
  cbn [Eff.calls Eff.called length app]. rewrite Hname.
  destruct (world 0 _) as [m|text].
  - split; [reflexivity|]. eexists. split; reflexivity.
  - destruct (JSON_parse (strip_fences text)) as [e|r].
    + split; [reflexivity|]. eexists. split; reflexivity.
    + split; [reflexivity|]. eexists. split; reflexivity.
Qed.

(** X17: for an ad type that names an inherited member, a rejected call
    makes the request fail: the fallback itself throws, because the name it
    wants to lower-case is not a string. *)
Theorem ugc_inherited_adtype_throws (this : t) (request : UGC.Request)
  (message : string) :
  isConfigured this = true ->
  UGC.adType request ∈ JsObject.prototype_keys ->
  world 0 (request_of (ugc_prompt request)) = Threw message ->
  (Eff.run (generateUGCAdContent JSON_parse world this request)).2
  = inl "adTypeName.toLowerCase is not a function".
Proof.
  intros Hconf Hkey Hw.
  unfold generateUGCAdContent, Eff.run. rewrite Hconf. cbn [negb].
  unfold Eff.try_catch, request_content, Eff.bind, Eff.call, Eff.lift,
    Eff.ret, fallback.
  cbn [Eff.calls Eff.called length app].
  rewrite Hw, (adTypeName_inherited _ Hkey). reflexivity.
Qed.

Lemma append_empty_l (s : string) : "" +:+ s = s.
Proof. reflexivity. Qed.

Lemma replace_ws_idem (s : string) :
  replace_ws "" (replace_ws "" s) = replace_ws "" s.
Proof.
  induction s as [|c s IH]; [reflexivity|].
  cbn [replace_ws]. destruct (is_ws c) eqn:Hc.
  - now rewrite append_empty_l.
  - cbn [replace_ws]. now rewrite Hc, IH.
Qed.

(** X18: the fallback carries five hashtags: the product name with every
    white space removed behind a [#], and four fixed ones. *)
Theorem fallback_hashtags (request : UGC.Request) (content : UGC.Content) :
  fallback request = inr content ->
  exists tag,
    UGC.hashtags content
    = Some ["#" +:+ tag; "#UGC"; "#Viral"; "#MustTry"; "#ProductReview"]
    /\ tag = replace_ws "" (UGC.productName request)
    /\ replace_ws "" tag = tag
    /\ String.length tag <= String.length (UGC.productName request).
Proof.
  unfold fallback.
  destruct (adTypeName_of (UGC.adType request)); [|discriminate].
  intros [= <-]. cbn [UGC.hashtags].
  exists (replace_ws "" (UGC.productName request)).
  split; [reflexivity|]. split; [reflexivity|].
  split; [apply replace_ws_idem|].
  induction (UGC.productName request) as [|c s IH]; [reflexivity|].
  cbn [replace_ws String.length]. destruct (is_ws c).
  - rewrite append_empty_l. lia.
  - cbn [String.length]. lia.
Qed.

End UgcContent.

Lemma ugc_needs_key_witness :
  Eff.run
    (GeminiService.generateUGCAdContent Scenario.JSON_parse
       (Scenario.replies [Replied Scenario.sale_json])
       (GeminiService.constructor "" true true) Scenario.ad)
  = ([], inl GeminiService.not_configured_message).
Proof.
  apply (ugc_needs_key Scenario.JSON_parse
           (Scenario.replies [Replied Scenario.sale_json]) "" true true
           Scenario.ad).
  left. reflexivity.
Defined.

Lemma not_inherited (key : string) :
  bool_decide (key ∈ JsObject.prototype_keys) = false ->
  key ∉ JsObject.prototype_keys.
Proof. intros H. now apply bool_decide_eq_false in H. Qed.

Lemma ugc_content_never_fails_witness :
  exists content,
    (Eff.run
       (GeminiService.generateUGCAdContent Scenario.JSON_parse
          (Scenario.replies [Threw "503 Service Unavailable"])
          Scenario.gemini Scenario.ad)).2 = inr content
    /\ UGC.stats content = GeminiService.fixed_stats.
Proof.
  destruct (ugc_content_never_fails Scenario.JSON_parse
              (Scenario.replies [Threw "503 Service Unavailable"])
              Scenario.gemini Scenario.ad eq_refl
              (not_inherited "testimonial" eq_refl)) as [_ Hcontent].
  exact Hcontent.
Defined.

Lemma ugc_inherited_adtype_throws_witness :
  (Eff.run
     (GeminiService.generateUGCAdContent Scenario.JSON_parse
        (Scenario.replies [Threw "503 Service Unavailable"])
        Scenario.gemini
        {| UGC.productName := "Trail Runner";
           UGC.productDescription := "Light shoes for long runs";
           UGC.adType := "constructor";
           UGC.imageFormat := "square";
           UGC.visualStyle := "authentic";
           UGC.mood := "excited";
           UGC.targetAudience := None;
           UGC.additionalDetails := None |})).2
  = inl "adTypeName.toLowerCase is not a function".
Proof.
  apply (ugc_inherited_adtype_throws Scenario.JSON_parse
           (Scenario.replies [Threw "503 Service Unavailable"])
           Scenario.gemini _ "503 Service Unavailable" eq_refl).
  - unfold JsObject.prototype_keys. apply elem_of_cons. now left.
  - reflexivity.
Defined.

Lemma fallback_hashtags_witness :
  exists content,
    GeminiService.fallback Scenario.ad = inr content /\
    UGC.hashtags content
    = Some ["#TrailRunner"; "#UGC"; "#Viral"; "#MustTry"; "#ProductReview"].
Proof.
  eexists. split; [reflexivity|].
  destruct (fallback_hashtags Scenario.ad _ eq_refl)
    as (tag & Htags & -> & _).
  exact Htags.
Defined.

(* ===================================================================== *)
(** ** Further properties: the generated image                            *)
(* ===================================================================== *)

Section Images.
Import JsString GeminiService.

(** X19: once configured, [generateImage] never throws: it reports
    success exactly when it extracted an image, with no error then, and
    reports an error and no image otherwise. *)
Theorem generateImage_result (this : t) (reply : ImageReply)
  (prompt : string) :
  isConfigured this = true ->
  exists result,
    generateImage this reply prompt = inr result
    /\ (success result = true <-> images result <> [])
    /\ (success result = true <-> error result = None)
    /\ (success result = true -> genaiClient this = true).
Proof.
  intros Hconf. unfold generateImage. rewrite Hconf. cbn [negb].
  eexists. split; [reflexivity|].
  destruct (genaiClient this); cbn [negb];
    [|cbn; repeat split; intros; congruence].
  destruct reply as [m|parts];
    [cbn; repeat split; intros; congruence|].
  destruct (extract_images parts) eqn:Hparts;
    cbn; repeat split; intros; congruence.
Qed.

(** X20: the loop over the parts keeps no more images than there are
    parts, skips every part that carries text, and gives each image a data
    URI made of its MIME type, which is never empty, and its payload. *)
Theorem extract_images_shape (parts : list Part) :
  length (extract_images parts) <= length parts
  /\ Forall
       (fun image =>
          mimeType image <> "" /\
          exists payload,
            data image
            = "data:" +:+ mimeType image +:+ ";base64," +:+ payload)
       (extract_images parts)
  /\ (Forall (fun part => Config.truthy (default "" (text part)) = true)
        parts ->
      extract_images parts = []).
Proof.
  induction parts as [|part parts (IHlen & IHshape & IHtext)].
  - split; [cbn; lia|]. split; [constructor | reflexivity].
  - cbn [extract_images length].
    destruct (Config.truthy (default "" (text part))) eqn:Htext.
    + split; [lia|]. split; [exact IHshape|].
      intros Hall. apply IHtext. now inversion Hall.
    + destruct (inlineData part) as [[imageData mime]|].
      * split; [cbn [length]; lia|]. split.
        -- constructor; [|exact IHshape]. cbn [data mimeType]. split.
           ++ unfold or_else. destruct mime as [m|]; [|discriminate].
              destruct (String.eqb_spec m ""); [discriminate | assumption].
           ++ now exists imageData.
        -- intros Hall. inversion Hall; congruence.
      * split; [lia|]. split; [exact IHshape|].
        intros Hall. inversion Hall; congruence.
Qed.

Lemma count_char_app (sep : ascii) (a b : string) :
  count_char sep (a +:+ b) = count_char sep a + count_char sep b.
Proof.
  induction a as [|c a IH]; [reflexivity|].
  rewrite app_cons. cbn [count_char]. rewrite IH. lia.
Qed.

Lemma split_without (sep : ascii) (s : string) :
  count_char sep s = 0 -> split sep s = [s].
Proof.
  induction s as [|c s IH]; [reflexivity|].
  cbn [count_char split]. destruct (Ascii.eqb c sep); [discriminate|].
  intros Hs. now rewrite (IH Hs).
Qed.

Lemma split_at_first (sep : ascii) (a b : string) :
  count_char sep a = 0 ->
  split sep (a +:+ String sep b) = a :: split sep b.
Proof.
  induction a as [|c a IH].
  - intros _. change ("" +:+ String sep b) with (String sep b).
    cbn [split]. now rewrite Ascii.eqb_refl.
  - rewrite app_cons. cbn [count_char split].
    destruct (Ascii.eqb c sep); [discriminate|].
    intros Ha. now rewrite (IH Ha).
Qed.

(** X21: the payload the upload decodes from the data URI of an extracted
    image is the payload the image model sent, as long as neither it nor
    the MIME type contains a comma (base64 text never does). *)
Theorem payload_round_trip (imageData : string) (mime : option string)
  (rest : list Part) :
  count_char "," imageData = 0 ->
  count_char "," (or_else mime "image/png") = 0 ->
  exists image,
    extract_images ({| text := None; inlineData := Some (imageData, mime) |}
                    :: rest)
    = image :: extract_images rest
    /\ SupabaseService.base64Data_of (data image) = Some imageData.
Proof.
  intros Hdata Hmime. cbn [extract_images text inlineData default].
  eexists. split; [reflexivity|]. cbn [data].
  unfold SupabaseService.base64Data_of.
  rewrite startsWith_app.
  replace ("data:" +:+ or_else mime "image/png" +:+ ";base64," +:+ imageData)
    with (("data:" +:+ or_else mime "image/png" +:+ ";base64")
          +:+ String "," imageData)
    by now rewrite !app_assoc_string.
  rewrite split_at_first, split_without; [reflexivity | exact Hdata |].
  rewrite !count_char_app, Hmime. reflexivity.
Qed.

(** X22: the URL the handler publishes for a generated image: the public
    URL when the storage is configured and accepts the payload, and the
    data URI of the image in every other case. *)
Theorem published_image_url (supabase : SupabaseService.t)
  (storage : string -> exn + string) (imageData mimeType : string)
  (rest : list ImageData) :
  count_char "," imageData = 0 ->
  count_char "," mimeType = 0 ->
  let image :=
    {| data := "data:" +:+ mimeType +:+ ";base64," +:+ imageData;
       mimeType := mimeType |} in
  ContentRoutes.generatedImageUrl_of
    (SupabaseService.isConfigured supabase)
    (SupabaseService.uploadImageToStorage supabase storage (data image))
    {| success := true; error := None; images := image :: rest |}
  = Some (if SupabaseService.isConfigured supabase
          then match storage imageData with
               | inr publicUrl => publicUrl
               | inl _ => data image
               end
          else data image).
Proof.
  intros Hdata Hmime. cbv zeta.
  unfold ContentRoutes.generatedImageUrl_of,
    SupabaseService.uploadImageToStorage.
  cbn [success images data].
  destruct (SupabaseService.isConfigured supabase); [|reflexivity].
  cbn [negb]. unfold SupabaseService.base64Data_of.
  rewrite startsWith_app.
  replace ("data:" +:+ mimeType +:+ ";base64," +:+ imageData)
    with (("data:" +:+ mimeType +:+ ";base64") +:+ String "," imageData)
    by now rewrite !app_assoc_string.
  rewrite split_at_first, split_without;
    [| exact Hdata | rewrite !count_char_app, Hmime; reflexivity].
  cbn [lookup list_lookup].
  now destruct (storage imageData).
Qed.

End Images.

Lemma generateImage_result_witness :
  exists result,
    GeminiService.generateImage Scenario.gemini Scenario.picture "A shop"
    = inr result
    /\ GeminiService.success result = true.
Proof.
  destruct (generateImage_result Scenario.gemini Scenario.picture "A shop"
              eq_refl) as (result & Hresult & Himages & _).
  exists result. split; [exact Hresult|].
  apply Himages. vm_compute in Hresult. injection Hresult as <-.
  discriminate.
Defined.

Lemma payload_round_trip_witness :
  exists image,
    GeminiService.extract_images
      [ {| GeminiService.text := None;
           GeminiService.inlineData := Some ("iVBORw0KGgo=", None) |} ]
    = [image]
    /\ SupabaseService.base64Data_of (GeminiService.data image)
       = Some "iVBORw0KGgo=".
Proof.
  exact (payload_round_trip "iVBORw0KGgo=" None [] eq_refl eq_refl).
Defined.

Lemma published_image_url_witness :
  ContentRoutes.generatedImageUrl_of true
    (SupabaseService.uploadImageToStorage
       (SupabaseService.constructor "https://x.supabase.co" "key" true)
       (fun _ => inr "https://x.supabase.co/ugc-ads/a.png")
       "data:image/png;base64,iVBORw0KGgo=")
    {| GeminiService.success := true; GeminiService.error := None;
       GeminiService.images :=
         [ {| GeminiService.data := "data:image/png;base64,iVBORw0KGgo=";
              GeminiService.mimeType := "image/png" |} ] |}
  = Some "https://x.supabase.co/ugc-ads/a.png".
Proof.
  exact (published_image_url
           (SupabaseService.constructor "https://x.supabase.co" "key" true)
           (fun _ => inr "https://x.supabase.co/ugc-ads/a.png")
           "iVBORw0KGgo=" "image/png" [] eq_refl eq_refl).
Defined.

(* ===================================================================== *)
(** ** Further properties: the handlers                                   *)
(* ===================================================================== *)

Section Handlers.
Import JsString.

Variable JSON_parse : string -> exn + GenerationResult.
Variable world : World.

Lemma or_else_message (e : exn) (fallback : string) :
  e <> "" -> or_else (Some e) fallback = e.
Proof.
  intros He. unfold or_else.
  destruct (String.eqb_spec e ""); [contradiction | reflexivity].
Qed.




Lemma ugc_failure_nonempty (gemini : GeminiService.t) (ad : UGC.Request)
  (e : exn) :
  (Eff.run
     (GeminiService.generateUGCAdContent JSON_parse world gemini ad)).2
    = inl e ->
  e <> "".
Proof.
  unfold GeminiService.generateUGCAdContent, Eff.run.
  destruct (GeminiService.isConfigured gemini); cbn [negb];
    [|intros [= <-]; discriminate].
  unfold Eff.try_catch, GeminiService.request_content, Eff.bind, Eff.call,
    Eff.lift, Eff.ret, GeminiService.fallback.
  destruct (world _ _); [|destruct (JSON_parse _)];
    try destruct (GeminiService.adTypeName_of (UGC.adType ad)); cbn [snd];
    intros H; try discriminate H; injection H as <-; discriminate.
Qed.

Lemma generateImage_configured (gemini : GeminiService.t)
  (reply : GeminiService.ImageReply) (prompt : string) :
  GeminiService.isConfigured gemini = true ->
  exists result, GeminiService.generateImage gemini reply prompt = inr result.
Proof.
  intros Hconf. unfold GeminiService.generateImage. rewrite Hconf.
  cbn [negb]. now eexists.
Qed.

(** X24: the UGC ad handler never rejects either. It answers with status
    500 and the error when the content request failed or the content has no
    image prompt; otherwise it answers with the content, whatever became of
    the image: a failed image generation only leaves the URL out. *)
Theorem ugc_handler (gemini : GeminiService.t)
  (image_reply : GeminiService.ImageReply) (supabase_configured : bool)
  (upload : exn + string) (ad : UGC.Request) :
  let content :=
    Eff.run (GeminiService.generateUGCAdContent JSON_parse world gemini ad) in
  let answer :=
    Eff.run
      (ContentRoutes.generate_ugc_ad JSON_parse world gemini image_reply
         supabase_configured upload ad) in
  answer.1 = content.1
  /\ match content.2 with
     | inl e => answer.2 = inr (ContentRoutes.Status500 e)
     | inr result =>
         match UGC.imagePrompt result with
         | None =>
             answer.2
             = inr (ContentRoutes.Status500
                      "Cannot read properties of undefined (reading 'substring')")
         | Some imagePrompt =>
             exists body imageResult,
               answer.2 = inr (ContentRoutes.Json body)
               /\ ContentRoutes.imagePrompt body = imagePrompt
               /\ ContentRoutes.caption body = UGC.caption result
               /\ ContentRoutes.hashtags body = UGC.hashtags result
               /\ ContentRoutes.cta body = UGC.cta result
               /\ GeminiService.generateImage gemini image_reply imagePrompt
                  = inr imageResult
               /\ (GeminiService.success imageResult = false ->
                   ContentRoutes.generatedImageUrl body = None)
         end
     end.
Proof.
  cbv zeta. unfold ContentRoutes.generate_ugc_ad.
  pose proof (ugc_failure_nonempty gemini ad) as Hne.
  set (m := GeminiService.generateUGCAdContent JSON_parse world gemini ad)
    in *.
  unfold Eff.run in *. unfold Eff.try_catch, Eff.bind.
  destruct (m []) as [h [e|result]] eqn:Hm; cbn [fst snd] in *.
  - split; [reflexivity|].
    unfold Eff.ret. now rewrite or_else_message by (now apply Hne).
  - destruct (UGC.imagePrompt result) as [imagePrompt|];
      [|split; reflexivity].
    assert (Hconf : GeminiService.isConfigured gemini = true).
    { subst m. unfold GeminiService.generateUGCAdContent in Hm.
      destruct (GeminiService.isConfigured gemini); [reflexivity|].
      discriminate Hm. }
    destruct (generateImage_configured gemini image_reply imagePrompt Hconf)
      as (imageResult & Himage).
    unfold Eff.lift, Eff.ret. rewrite Himage. cbn [fst snd].
    split; [reflexivity|].
    eexists _, imageResult. repeat split.
    cbn [ContentRoutes.generatedImageUrl].
    unfold ContentRoutes.generatedImageUrl_of. now intros ->.
Qed.

End Handlers.

(* ===================================================================== *)
(** ** Further properties: authentication                                 *)
(* ===================================================================== *)

Section Authentication.
Import JsString Auth.

Lemma startsWith_split (s p : string) :
  startsWith s p = true -> s = p +:+ drop (String.length p) s.
Proof.
  unfold startsWith. revert s. induction p as [|c p IH]; intros s Hp.
  - now destruct s.
  - destruct s as [|d s]; [discriminate Hp|].
    cbn [String.prefix] in Hp.
    destruct (ascii_dec c d) as [->|]; [|discriminate Hp].
    rewrite app_cons. cbn [String.length drop]. f_equal. now apply IH.
Qed.

(** X25: a user is attached to the request only for a header that is
    [Bearer ] followed by a token the identity service verified without
    error, and only when that service is configured; everything else,
    also an error thrown on the way, leaves the request anonymous. *)
Theorem authenticated_by_token (supabase_configured : bool)
  (authorization : option string) (getUser : string -> GetUser)
  (user : User) :
  authenticateUser supabase_configured authorization getUser = Some user
  <-> supabase_configured = true
      /\ exists token,
           authorization = Some ("Bearer " +:+ token)
           /\ getUser token = GetUserResult None (Some user).
Proof.
  unfold authenticateUser. split.
  - destruct supabase_configured; [|discriminate]. cbn [negb].
    destruct authorization as [authHeader|]; [|discriminate].
    destruct (Config.truthy authHeader); [|discriminate]. cbn [negb orb].
    destruct (startsWith authHeader "Bearer ") eqn:Hbearer; [|discriminate].
    cbn [negb]. rewrite substring_from_drop.
    destruct (getUser (drop 7 authHeader)) as [m|[err|] [u|]] eqn:Huser;
      try discriminate.
    intros [= ->]. split; [reflexivity|].
    exists (drop 7 authHeader). split; [|exact Huser].
    f_equal. exact (startsWith_split authHeader "Bearer " Hbearer).
  - intros (-> & token & -> & Huser). cbn [negb].
    replace (Config.truthy ("Bearer " +:+ token)) with true by reflexivity.
    rewrite startsWith_app. cbn [negb orb].
    rewrite substring_from_drop.
    change (drop 7 ("Bearer " +:+ token)) with token.
    now rewrite Huser.
Qed.

(** X26: behind [requireAuth], a request passes exactly when
    [authenticateUser] attached a user; with the identity service not
    configured every request is answered 401. *)
Theorem require_auth_gate (supabase_configured : bool)
  (authorization : option string) (getUser : string -> GetUser) :
  (requireAuth (authenticateUser supabase_configured authorization getUser)
   = None
   <-> exists user,
         authenticateUser supabase_configured authorization getUser
         = Some user)
  /\ (supabase_configured = false ->
      requireAuth (authenticateUser supabase_configured authorization getUser)
      = Some (401, "Authentication required. Please log in.")).
Proof.
  split.
  - destruct (authenticateUser _ _ _) as [user|]; cbn [requireAuth].
    + split; [now exists user | reflexivity].
    + split; [discriminate | now intros [user Hu]].
  - now intros ->.
Qed.

End Authentication.

Lemma authenticated_by_token_witness :
  let user := {| Auth.id := "u1"; Auth.email := None |} in
  Auth.authenticateUser true (Some "Bearer abc")
    (fun token =>
       if String.eqb token "abc" then Auth.GetUserResult None (Some user)
       else Auth.GetUserResult (Some "invalid JWT") None)
  = Some user.
Proof.
  cbv zeta.
  apply (authenticated_by_token true (Some "Bearer abc")).
  split; [reflexivity|]. exists "abc". split; reflexivity.
Defined.

Lemma require_auth_gate_witness :
  Auth.requireAuth
    (Auth.authenticateUser false (Some "Bearer abc")
       (fun _ => Auth.GetUserThrew "unreachable"))
  = Some (401, "Authentication required. Please log in.").
Proof.
  destruct (require_auth_gate false (Some "Bearer abc")
              (fun _ => Auth.GetUserThrew "unreachable")) as [_ Hclosed].
  exact (Hclosed eq_refl).
Defined.

(* ===================================================================== *)
(** ** Further runs in concrete worlds                                    *)
(* ===================================================================== *)

Lemma no_client_no_call_witness :
  Eff.run
    (OpenAIService._generateContent Scenario.JSON_parse
       (Scenario.replies [Replied Scenario.shoes_json])
       (Scenario.clients false false false) "s" "u")
  = ([], inl OpenAIService.no_provider_message).
Proof.
  destruct (no_client_no_call Scenario.JSON_parse
              (Scenario.replies [Replied Scenario.shoes_json])
              (Scenario.clients false false false) "s" "u")
    as [[Htrace _] Hresult].
  specialize (Htrace eq_refl). specialize (Hresult eq_refl).
  destruct (Eff.run _) as [trace result]. cbn [fst snd] in *.
  now subst.
Defined.

(** Every provider is configured and every call is rejected. *)
Lemma failure_message_witness :
  let world :=
    Scenario.replies
      [Threw "401"; Threw "503"; Threw "503"; Threw "429"; Threw "timeout"] in
  (Eff.run
     (OpenAIService._generateContent Scenario.JSON_parse world
        (Scenario.clients true true true) "s" "u")).2
  = inl "All AI providers failed. Last error: timeout".
Proof.
  cbv zeta.
  destruct (failure_message Scenario.JSON_parse
              (Scenario.replies
                 [Threw "401"; Threw "503"; Threw "503"; Threw "429";
                  Threw "timeout"])
              (Scenario.clients true true true) "s" "u" _ eq_refl)
    as (k & cause & _ & _ & Hmessage).
  reflexivity.
Defined.

Lemma failure_is_exhaustive_witness :
  let world :=
    Scenario.replies
      [Threw "401"; Threw "503"; Threw "503"; Threw "429"; Threw "timeout"] in
  Eff.calls
    (Eff.run
       (OpenAIService._generateContent Scenario.JSON_parse world
          (Scenario.clients true true true) "s" "u")).1
  = 5.
Proof.
  cbv zeta.
  destruct (failure_is_exhaustive Scenario.JSON_parse
              (Scenario.replies
                 [Threw "401"; Threw "503"; Threw "503"; Threw "429";
                  Threw "timeout"])
              (Scenario.clients true true true) "s" "u" _ eq_refl)
    as [Hcalls _].
  exact Hcalls.
Defined.
